(** * HTML-to-DOCX converters: extraction and rendering

    A shallow embedding of [scripts/build-resume-docx.py] and
    [scripts/build-coverletter-docx.py].

    - [Py]   : the Python fragments both scripts rely on (exceptions,
               [str.strip], [str.join], [enumerate], [for] loops).
    - [bs4]  : the BeautifulSoup tree and the queries the scripts call.
    - [docx] : the python-docx object model the scripts write to.
    - [Resume], [CoverLetter] : the two scripts, function by function.
    - [Cli]  : the [__main__] blocks, as a step function over a file system.
    - [Samples], [SampleData], [RunSamples] : concrete pages, records, runs.
    - [Readers], [Forms], [Grid], [ResumeForms], [CoverForms], [Extracted],
      [Required] : what the properties are stated with - readers of a
      rendered document, closed forms of rendered pieces, and the elements
      an extractor needs.

    The properties follow the definitions. *)

From stdpp Require Import gmap strings list.
From Stdlib Require Import ZArith Ascii ZifyNat.

Set Warnings "-register-all".
Local Open Scope Z_scope.

(* ===================================================================== *)
(** ** Python fragments *)
(* ===================================================================== *)

Module Py.

(** Exceptions that the scripts can let escape. *)
Inductive exception :=
| AttributeError      (* method call on [None] *)
| IndexError          (* list or table index out of range *)
| FileNotFoundError   (* [open] of a missing path *)
| UnicodeDecodeError  (* [f.read()] of bytes that are not text *)
| PermissionError.    (* [save] to an unwritable path *)

Inductive result (A : Type) :=
| Ok (a : A)
| Raise (e : exception).
Arguments Ok {A} a.
Arguments Raise {A} e.

Global Instance result_ret : MRet result := fun _ a => Ok a.
Global Instance result_bind : MBind result := fun _ _ f m =>
  match m with Ok a => f a | Raise e => Raise e end.

Definition is_ok {A} (r : result A) : bool :=
  match r with Ok _ => true | Raise _ => false end.

(** [for x in xs: acc = body(acc, x)] where the body may raise. *)
Fixpoint for_each {A S} (body : S → A → result S) (s : S) (xs : list A) : result S :=
  match xs with
  | [] => Ok s
  | x :: xs' => s' ← body s x; for_each body s' xs'
  end.

(** [enumerate(xs)] *)
Fixpoint enumerate_from {A} (i : nat) (xs : list A) : list (nat * A) :=
  match xs with
  | [] => []
  | x :: xs' => (i, x) :: enumerate_from (S i) xs'
  end.
Definition enumerate {A} (xs : list A) : list (nat * A) := enumerate_from 0 xs.

(** [xs[i]] for a non-negative index. *)
Definition index {A} (xs : list A) (i : nat) : result A :=
  match xs !! i with Some x => Ok x | None => Raise IndexError end.

(** Calling a method on the result of a query that may have returned [None]. *)
Definition deref {A} (o : option A) : result A :=
  match o with Some x => Ok x | None => Raise AttributeError end.

(** Truthiness of a [str]. *)
Definition truthy (s : string) : bool := negb (String.eqb s "").

(** *** [str.strip()]

    A [str] is held as its UTF-8 bytes.  [str.strip()] removes the code
    points for which [str.isspace] holds: U+0009..U+000D, U+001C..U+0020,
    U+0085, U+00A0, U+1680, U+2000..U+200A, U+2028, U+2029, U+202F, U+205F
    and U+3000; the last ones are two or three bytes long. *)

Definition space1 (c : ascii) : bool :=
  match c with
  | "009" | "010" | "011" | "012" | "013"
  | "028" | "029" | "030" | "031" | " " => true
  | _ => false
  end%char.

(** [space2 a b]: the bytes [a b] encode U+0085 or U+00A0. *)
Definition space2 (a b : ascii) : bool :=
  match a, b with
  | "194", "133" | "194", "160" => true
  | _, _ => false
  end%char.

(** [space3 a b c]: the bytes [a b c] encode one of the three-byte spaces. *)
Definition space3 (a b c : ascii) : bool :=
  match a, b, c with
  | "225", "154", "128" => true                       (* U+1680 *)
  | "226", "128", x =>
      let n := N_of_ascii x in
      ((128 <=? n)%N && (n <=? 138)%N)                 (* U+2000..U+200A *)
      || (n =? 168)%N || (n =? 169)%N || (n =? 175)%N  (* U+2028 U+2029 U+202F *)
  | "226", "129", "159" => true                       (* U+205F *)
  | "227", "128", "128" => true                       (* U+3000 *)
  | _, _, _ => false
  end%char.

(** Dropping leading spaces; [fwd] tells whether the bytes are met in
    reading order or (for the right end) reversed. *)
Fixpoint drop_spaces (fwd : bool) (s : string) : string :=
  match s with
  | "" => ""
  | String a s1 =>
      if space1 a then drop_spaces fwd s1 else
      match s1 with
      | "" => s
      | String b s2 =>
          if (if fwd then space2 a b else space2 b a) then drop_spaces fwd s2 else
          match s2 with
          | "" => s
          | String c s3 =>
              if (if fwd then space3 a b c else space3 c b a)
              then drop_spaces fwd s3 else s
          end
      end
  end.

Definition lstrip (s : string) : string := drop_spaces true s.
Definition rstrip (s : string) : string := String.rev (drop_spaces false (String.rev s)).
Definition strip (s : string) : string := rstrip (lstrip s).

(** [sep.join(xs)] *)
Fixpoint join (sep : string) (xs : list string) : string :=
  match xs with
  | [] => ""
  | [x] => x
  | x :: xs' => x +:+ sep +:+ join sep xs'
  end.

End Py.
Export Py.

(* ===================================================================== *)
(** ** BeautifulSoup trees *)
(* ===================================================================== *)

Module bs4.

(** A parsed page element: a [Tag] with its name, the tokens of its
    [class] attribute and its contents, or a [NavigableString]. *)
Inductive node :=
| Tag (name : string) (classes : list string) (contents : list node)
| NavigableString (s : string).

(** [el.children] *)
Definition children (n : node) : list node :=
  match n with
  | Tag _ _ cs => cs
  | NavigableString _ => []
  end.

(** [el.descendants]: every element below [el], in document order. *)
Fixpoint descendants (n : node) : list node :=
  match n with
  | Tag _ _ cs =>
      (fix go (l : list node) : list node :=
         match l with
         | [] => []
         | c :: l' => c :: descendants c ++ go l'
         end) cs
  | NavigableString _ => []
  end.

(** Does a page element match [find(name, class_=cls)]?  Only tags match;
    a class filter matches when it is one of the tag's class tokens. *)
Definition matches (name : string) (cls : option string) (n : node) : bool :=
  match n with
  | Tag nm cs _ =>
      String.eqb nm name &&
      match cls with
      | None => true
      | Some c => existsb (String.eqb c) cs
      end
  | NavigableString _ => false
  end.

(** [el.find_all(name, class_=cls)] *)
Definition find_all (name : string) (cls : option string) (n : node) : list node :=
  filter (fun d => matches name cls d = true) (descendants n).

(** [el.find_all(name, recursive=False)] *)
Definition find_all_children (name : string) (n : node) : list node :=
  filter (fun d => matches name None d = true) (children n).

(** [el.find(name, class_=cls)]: the first match, or [None]. *)
Definition find (name : string) (cls : option string) (n : node) : option node :=
  head (find_all name cls n).

(** The strings [get_text(strip=True)] joins: every string below the
    element (or the element itself when it is a string), stripped, the
    empty ones left out. *)
Definition stripped (n : node) : list string :=
  match n with
  | NavigableString s => let v := strip s in if truthy v then [v] else []
  | Tag _ _ _ => []
  end.

Definition all_strings (n : node) : list string :=
  match n with
  | NavigableString _ => stripped n
  | Tag _ _ _ => flat_map stripped (descendants n)
  end.

(** [el.get_text(sep, strip=True)] *)
Definition get_text (sep : string) (n : node) : string :=
  join sep (all_strings n).

End bs4.
Export bs4.

(* ===================================================================== *)
(** ** The python-docx object model *)
(* ===================================================================== *)

Module docx.

Inductive RGBColor := RGB (r g b : Z).

(** Lengths are English Metric Units, as python-docx stores them. *)
Definition Pt (n : Z) : Z := n * 12700.
(** [Cm10 t] is [Cm(t/10)]: the scripts only use tenths of a centimetre. *)
Definition Cm10 (t : Z) : Z := t * 36000.

Inductive WD_ALIGN_PARAGRAPH := LEFT | CENTER | RIGHT | JUSTIFY.

Record run := mk_run {
  r_text : string;
  r_bold : bool;
  r_italic : bool;
  r_color : option RGBColor;
  r_size : option Z;
  r_font_name : option string;
  r_all_caps : bool
}.

Record paragraph := mk_paragraph {
  p_alignment : option WD_ALIGN_PARAGRAPH;
  p_space_before : option Z;
  p_space_after : option Z;
  p_left_indent : option Z;
  p_first_line_indent : option Z;
  p_bottom_border : option string;   (* colour of an injected [w:pBdr] *)
  p_runs : list run
}.

(** Elements the scripts inject into a cell's [w:tcPr]. *)
Inductive tc_prop :=
| Shd (fill : string)
| TcMar (top left bottom right : Z)
| TcW (w : Z).

Record cell := mk_cell {
  c_tcPr : list tc_prop;
  c_paragraphs : list paragraph
}.

(** Elements of a table's [w:tblPr]. *)
Inductive tbl_prop := TblW_auto | TblLook | TblBorders_none.

Record table := mk_table {
  t_alignment : option Z;
  t_tblPr : list tbl_prop;
  t_rows : list (list cell)
}.

Inductive block :=
| BParagraph (p : paragraph)
| BTable (t : table).

Record style := mk_style {
  st_font_name : option string;
  st_font_size : option Z;
  st_font_color : option RGBColor;
  st_space_after : option Z;
  st_space_before : option Z;
  st_line_spacing_x10 : option Z     (* 16 stands for 1.6 *)
}.

Record margins := mk_margins {
  top_margin : option Z;
  bottom_margin : option Z;
  left_margin : option Z;
  right_margin : option Z
}.

Record document := mk_document {
  d_section : margins;
  d_normal : style;
  d_body : list block
}.

Global Instance RGBColor_eq_dec : EqDecision RGBColor.
Proof. solve_decision. Defined.
Global Instance WD_ALIGN_eq_dec : EqDecision WD_ALIGN_PARAGRAPH.
Proof. solve_decision. Defined.
Global Instance tbl_prop_eq_dec : EqDecision tbl_prop.
Proof. solve_decision. Defined.
Global Instance run_eq_dec : EqDecision run.
Proof. solve_decision. Defined.
Global Instance paragraph_eq_dec : EqDecision paragraph.
Proof. solve_decision. Defined.

(** [Document()]: the default template, nothing set by the caller yet and
    an empty body. *)
Definition Document : document :=
  mk_document (mk_margins None None None None)
              (mk_style None None None None None None) [].

(** A paragraph as [add_paragraph()] creates it. *)
Definition new_paragraph : paragraph :=
  mk_paragraph None None None None None None [].

(** A cell as [add_table] creates it: one empty paragraph.  ([c_tcPr]
    holds what the scripts add; the share of the page width python-docx
    itself writes into a new cell is not tracked.) *)
Definition new_cell : cell := mk_cell [] [new_paragraph].

(** The table [add_table(rows, cols)] creates. *)
Definition new_table (rows cols : nat) : table :=
  mk_table None [TblW_auto; TblLook] (replicate rows (replicate cols new_cell)).

(** Setters: [p.alignment = a], [p.paragraph_format.space_after = v], ... *)
Definition set_alignment (a : WD_ALIGN_PARAGRAPH) (p : paragraph) : paragraph :=
  mk_paragraph (Some a) (p_space_before p) (p_space_after p) (p_left_indent p)
               (p_first_line_indent p) (p_bottom_border p) (p_runs p).
Definition set_space_before (v : Z) (p : paragraph) : paragraph :=
  mk_paragraph (p_alignment p) (Some v) (p_space_after p) (p_left_indent p)
               (p_first_line_indent p) (p_bottom_border p) (p_runs p).
Definition set_space_after (v : Z) (p : paragraph) : paragraph :=
  mk_paragraph (p_alignment p) (p_space_before p) (Some v) (p_left_indent p)
               (p_first_line_indent p) (p_bottom_border p) (p_runs p).
Definition set_left_indent (v : Z) (p : paragraph) : paragraph :=
  mk_paragraph (p_alignment p) (p_space_before p) (p_space_after p) (Some v)
               (p_first_line_indent p) (p_bottom_border p) (p_runs p).
Definition set_first_line_indent (v : Z) (p : paragraph) : paragraph :=
  mk_paragraph (p_alignment p) (p_space_before p) (p_space_after p) (p_left_indent p)
               (Some v) (p_bottom_border p) (p_runs p).
Definition set_bottom_border (c : string) (p : paragraph) : paragraph :=
  mk_paragraph (p_alignment p) (p_space_before p) (p_space_after p) (p_left_indent p)
               (p_first_line_indent p) (Some c) (p_runs p).
Definition set_runs (rs : list run) (p : paragraph) : paragraph :=
  mk_paragraph (p_alignment p) (p_space_before p) (p_space_after p) (p_left_indent p)
               (p_first_line_indent p) (p_bottom_border p) rs.

(** [paragraph.add_run(text)] followed by assignments to the new run: the
    paragraph gains [r] as its last run. *)
Definition append_run (r : run) (p : paragraph) : paragraph :=
  set_runs (p_runs p ++ [r]) p.

Definition set_all_caps (r : run) : run :=
  mk_run (r_text r) (r_bold r) (r_italic r) (r_color r) (r_size r) (r_font_name r) true.

(** [doc.add_paragraph()] / [doc.add_table()], the block given in its
    final state. *)
Definition add_block (b : block) (d : document) : document :=
  mk_document (d_section d) (d_normal d) (d_body d ++ [b]).

Definition set_body (bs : list block) (d : document) : document :=
  mk_document (d_section d) (d_normal d) bs.

(** [cell.add_paragraph()] *)
Definition cell_add_paragraph (p : paragraph) (c : cell) : cell :=
  mk_cell (c_tcPr c) (c_paragraphs c ++ [p]).

(** [p = cell.paragraphs[0]] and what is then done to [p]. *)
Definition with_paragraph0 (f : paragraph → paragraph) (c : cell) : result cell :=
  match c_paragraphs c with
  | [] => Raise IndexError
  | p :: ps => Ok (mk_cell (c_tcPr c) (f p :: ps))
  end.

Definition tcPr_append (x : tc_prop) (c : cell) : cell :=
  mk_cell (c_tcPr c ++ [x]) (c_paragraphs c).

(** [table.cell(r, c)]: the cell in row [r], column [c]; out of the grid
    it raises. *)
Definition table_cell (t : table) (r c : nat) : result cell :=
  row ← index (t_rows t) r; index row c.

(** [cell = table.cell(r, c)] and what is then done to [cell]. *)
Definition with_cell (r c : nat) (f : cell → result cell) (t : table) : result table :=
  row ← index (t_rows t) r;
  cl ← index row c;
  cl' ← f cl;
  Ok (mk_table (t_alignment t) (t_tblPr t) (<[r := <[c := cl']> row]> (t_rows t))).

Definition set_table_alignment (a : Z) (t : table) : table :=
  mk_table (Some a) (t_tblPr t) (t_rows t).
Definition set_tblPr (ps : list tbl_prop) (t : table) : table :=
  mk_table (t_alignment t) ps (t_rows t).

(** The text of a paragraph, as python-docx's [paragraph.text] reads it. *)
Definition paragraph_text (p : paragraph) : string :=
  join "" (map r_text (p_runs p)).

End docx.
Export docx.

(* ===================================================================== *)
(** ** scripts/build-resume-docx.py *)
(* ===================================================================== *)

Module Resume.

(** Brand colours. *)
Definition PRIMARY : RGBColor := RGB 0x0D 0x6E 0x6E.
Definition SECONDARY : RGBColor := RGB 0x14 0x91 0x9B.
Definition ACCENT : RGBColor := RGB 0x1A 0x3A 0x3A.
Definition DARK : RGBColor := RGB 0x2C 0x3E 0x50.
Definition WHITE : RGBColor := RGB 0xFF 0xFF 0xFF.

(** *** The record [parse_resume] builds *)

Record job := mk_job {
  j_title : string;
  j_company : string;
  j_date : string;
  j_bullets : list string
}.

Record data := mk_data {
  name : string;
  title : string;
  contacts : list string;
  skills : list string;
  jobs : list job;
  military : list job;
  education : gmap string (list string)
}.

Global Instance job_eq_dec : EqDecision job.
Proof. solve_decision. Defined.

Definition append_job (d : data) (j : job) : data :=
  mk_data (name d) (title d) (contacts d) (skills d) (jobs d ++ [j]) (military d)
          (education d).
Definition append_military (d : data) (j : job) : data :=
  mk_data (name d) (title d) (contacts d) (skills d) (jobs d) (military d ++ [j])
          (education d).
Definition set_education (e : gmap string (list string)) (d : data) : data :=
  mk_data (name d) (title d) (contacts d) (skills d) (jobs d) (military d) e.

(** *** Extraction *)

(** [_parse_job(job_div)] *)
Definition _parse_job (job_div : node) : result job :=
  header ← deref (find "div" (Some "job-header") job_div);
  let title_el := find "span" (Some "job-title") header in
  let company_el := find "span" (Some "job-company") header in
  let date_el := find "span" (Some "job-date") header in
  let title := match title_el with Some e => get_text "" e | None => "" end in
  let company := match company_el with Some e => get_text "" e | None => "" end in
  let date := match date_el with Some e => get_text "" e | None => "" end in
  let bullets := find "ul" (Some "job-bullets") job_div in
  let items :=
    match bullets with
    | Some ul => foldl (fun acc li => acc ++ [get_text "" li]) [] (find_all "li" None ul)
    | None => []
    end in
  Ok (mk_job title company date items).

(** The contact loop shared by both extractors:
    [for child in contact_row.children: ... if text: append]. *)
Definition collect_texts (els : list node) : list string :=
  foldl (fun acc child =>
           let text := get_text "" child in
           if truthy text then acc ++ [text] else acc) [] els.

(** The body of the ["Education & Certifications"] branch. *)
Definition parse_education (section : node) (d : data) : result data :=
  two_col ← deref (find "div" (Some "two-column") section);
  let columns := find_all_children "div" two_col in
  let edu := <["left" := []]> (education d) in
  let edu := <["right" := []]> edu in
  col0 ← index columns 0;
  let edu := foldl (fun e item => alter (fun l => l ++ [get_text " " item]) "left" e)
                   edu (find_all "div" (Some "cert-item") col0) in
  col1 ← index columns 1;
  let edu := foldl (fun e item => alter (fun l => l ++ [get_text " " item]) "right" e)
                   edu (find_all "div" (Some "cert-item") col1) in
  Ok (set_education edu d).

(** One turn of [for section in sections]. *)
Definition parse_section (d : data) (section : node) : result data :=
  match find "div" (Some "section-title") section with
  | None => Ok d                                        (* continue *)
  | Some title_el =>
      let title_text := get_text "" title_el in
      if String.eqb title_text "Professional Experience" then
        for_each (fun d job_div => j ← _parse_job job_div; Ok (append_job d j))
                 d (find_all "div" (Some "job") section)
      else if String.eqb title_text "Military Service" then
        for_each (fun d job_div => j ← _parse_job job_div; Ok (append_military d j))
                 d (find_all "div" (Some "job") section)
      else if String.eqb title_text "Education & Certifications" then
        parse_education section d
      else Ok d
  end.

(** [parse_resume], from the tree BeautifulSoup built for the file. *)
Definition parse_resume (soup : node) : result data :=
  header ← deref (find "div" (Some "header") soup);
  h1 ← deref (find "h1" None header);
  let name := get_text "" h1 in
  title_el ← deref (find "div" (Some "title") header);
  let title := get_text "" title_el in
  contact_row ← deref (find "div" (Some "contact-row") header);
  let contacts := collect_texts (children contact_row) in
  skills_div ← deref (find "div" (Some "skills-grid") soup);
  let skills := map (get_text "") (find_all "div" (Some "skill-item") skills_div) in
  let sections := find_all "div" (Some "section") soup in
  for_each parse_section (mk_data name title contacts skills [] [] ∅) sections.

(** *** Rendering helpers *)

Definition set_cell_shading (color_hex : string) (c : cell) : cell :=
  tcPr_append (Shd color_hex) c.

Definition remove_table_borders (t : table) : table :=
  set_tblPr (t_tblPr t ++ [TblBorders_none]) t.

(** [set_cell_width(cell, inches)], the width given in twentieths of a
    point: [int(inches * 1440)]. *)
Definition set_cell_width (twips : Z) (c : cell) : cell :=
  tcPr_append (TcW twips) c.

Definition set_cell_margins (top bottom left right : Z) (c : cell) : cell :=
  tcPr_append (TcMar (top * 20) (left * 20) (bottom * 20) (right * 20)) c.

(** The run [add_run] creates: each optional argument is applied only
    when it is truthy. *)
Definition make_run (text : string) (bold : bool) (color : option RGBColor)
    (size : option Z) (font_name : option string) : run :=
  mk_run text bold false color
         (match size with Some s => if s =? 0 then None else Some s | None => None end)
         (match font_name with Some f => if truthy f then Some f else None | None => None end)
         false.

Definition add_run (p : paragraph) (text : string) (bold : bool)
    (color : option RGBColor) (size : option Z) : paragraph :=
  append_run (make_run text bold color size None) p.

Definition add_bottom_border (color_hex : string) (p : paragraph) : paragraph :=
  set_bottom_border color_hex p.

Definition _add_section_heading (doc : document) (text : string) : document :=
  let p := new_paragraph in
  let p := set_space_before (Pt 10) p in
  let p := set_space_after (Pt 6) p in
  let p := add_run p text true (Some PRIMARY) (Some (Pt 12)) in
  let p := add_bottom_border "0D6E6E" p in
  add_block (BParagraph p) doc.

Definition _add_spacer (doc : document) (pts : Z) : document :=
  let p := new_paragraph in
  let p := set_space_before (Pt 0) p in
  let p := set_space_after (Pt pts) p in
  add_block (BParagraph p) doc.

(** The left cell's paragraph of a job header: ["Title | Company"]. *)
Definition job_left_paragraph (j : job) (p : paragraph) : paragraph :=
  let p := set_space_before (Pt 4) p in
  let p := set_space_after (Pt 2) p in
  let p := add_run p (j_title j) true (Some ACCENT) (Some (Pt 10)) in
  if truthy (j_company j) then
    let p := add_run p " | " false (Some DARK) (Some (Pt 10)) in
    add_run p (j_company j) true (Some PRIMARY) (Some (Pt 10))
  else p.

(** The right cell's paragraph of a job header: the date. *)
Definition job_right_paragraph (j : job) (p : paragraph) : paragraph :=
  let p := set_alignment RIGHT p in
  let p := set_space_before (Pt 4) p in
  let p := set_space_after (Pt 2) p in
  add_run p (j_date j) false (Some (RGB 0x66 0x66 0x66)) (Some (Pt 9)).

Definition bullet_paragraph (bullet : string) : paragraph :=
  let p := new_paragraph in
  let p := set_space_before (Pt 1) p in
  let p := set_space_after (Pt 1) p in
  let p := set_left_indent (Cm10 8) p in
  let p := set_first_line_indent (Cm10 (-4)) p in
  let p := add_run p "▸ " false (Some SECONDARY) (Some (Pt 9)) in
  add_run p bullet false (Some DARK) (Some (Pt 9)).

(** [_add_job_entry(doc, job, page_width_inches)]; the third argument is
    never read by the function. *)
Definition _add_job_entry (doc : document) (j : job) : result document :=
  let job_table := new_table 1 2 in
  let job_table := remove_table_borders job_table in
  _ ← table_cell job_table 0 0;
  job_table ← with_cell 0 1 (fun c => Ok (set_cell_width 2160 c)) job_table;
  job_table ← with_cell 0 0 (with_paragraph0 (job_left_paragraph j)) job_table;
  job_table ← with_cell 0 1 (with_paragraph0 (job_right_paragraph j)) job_table;
  let doc := add_block (BTable job_table) doc in
  Ok (foldl (fun d bullet => add_block (BParagraph (bullet_paragraph bullet)) d)
            doc (j_bullets j)).

(** The contact loop of both renderers:
    [for i, contact in enumerate(contacts): if i > 0: spacer; contact]. *)
Definition add_contact_runs (p : paragraph) (contacts : list string) : paragraph :=
  foldl (fun p '(i, contact) =>
           let p := if (0 <? i)%nat
                    then add_run p "    " false (Some WHITE) (Some (Pt 9))
                    else p in
           add_run p contact false (Some WHITE) (Some (Pt 9)))
        p (enumerate contacts).

(** What the skills loop does to the paragraph of one grid cell. *)
Definition skill_paragraph (skill : string) (p : paragraph) : paragraph :=
  let p := set_space_before (Pt 2) p in
  let p := set_space_after (Pt 2) p in
  let p := add_run p "✓ " true (Some PRIMARY) (Some (Pt 10)) in
  add_run p skill false (Some DARK) (Some (Pt 10)).

(** The skills grid: [rows_needed = (len(skills) + 1) // 2], then one cell
    per skill at row [i // 2], column [i % 2]. *)
Definition skills_table (skills : list string) : result table :=
  let rows_needed := ((length skills + 1) / 2)%nat in
  let t := new_table rows_needed 2 in
  let t := remove_table_borders t in
  for_each (fun t '(i, skill) =>
              let row_idx := (i / 2)%nat in
              let col_idx := (i mod 2)%nat in
              with_cell row_idx col_idx (with_paragraph0 (skill_paragraph skill)) t)
           t (enumerate skills).

Definition header_table (d : data) : result table :=
  let t := new_table 1 1 in
  let t := set_table_alignment 1 t in
  let t := remove_table_borders t in
  t ← with_cell 0 0
        (fun c => Ok (set_cell_margins 14 14 10 10 (set_cell_shading "0D6E6E" c))) t;
  (* drop any [w:tblW], then append a fresh one *)
  let t := set_tblPr (filter (fun x => x ≠ TblW_auto) (t_tblPr t) ++ [TblW_auto]) t in
  with_cell 0 0
    (fun c =>
       (* name *)
       c ← with_paragraph0
             (fun p =>
                let p := set_alignment CENTER p in
                let p := set_space_after (Pt 2) p in
                let p := set_space_before (Pt 4) p in
                add_run p (name d) true (Some WHITE) (Some (Pt 22))) c;
       (* title *)
       let p := new_paragraph in
       let p := set_alignment CENTER p in
       let p := set_space_after (Pt 8) p in
       let p := set_space_before (Pt 0) p in
       let p := append_run (set_all_caps (make_run (title d) false (Some WHITE)
                                                   (Some (Pt 11)) None)) p in
       let c := cell_add_paragraph p c in
       (* contact row *)
       let p := new_paragraph in
       let p := set_alignment CENTER p in
       let p := set_space_after (Pt 4) p in
       let p := set_space_before (Pt 0) p in
       let p := add_contact_runs p (contacts d) in
       Ok (cell_add_paragraph p c)) t.

(** One column of the education table: its label, then one paragraph per
    item of [data["education"].get(key, [])]. *)
Definition education_cell (label key : string) (d : data) (c : cell) : result cell :=
  c ← with_paragraph0
        (fun p =>
           let p := set_space_after (Pt 4) p in
           add_run p label true (Some DARK) (Some (Pt 10))) c;
  Ok (foldl (fun c item =>
               let p := new_paragraph in
               let p := set_space_after (Pt 3) p in
               let p := set_space_before (Pt 1) p in
               let p := add_run p item false (Some DARK) (Some (Pt 9)) in
               cell_add_paragraph p c)
            c (default [] (education d !! key))).

Definition education_table (d : data) : result table :=
  let t := new_table 1 2 in
  let t := remove_table_borders t in
  t ← with_cell 0 0 (education_cell "Education" "left" d) t;
  with_cell 0 1 (education_cell "Certifications" "right" d) t.

(** [build_docx(data, output_path)] up to [doc.save]: the document saved. *)
Definition build_docx (d : data) : result document :=
  let doc := Document in
  let doc := mk_document (mk_margins (Some (Cm10 15)) (Some (Cm10 15))
                                     (Some (Cm10 20)) (Some (Cm10 20)))
                         (d_normal doc) (d_body doc) in
  let doc := mk_document (d_section doc)
                         (mk_style (Some "Calibri") (Some (Pt 10)) (Some DARK)
                                   (Some (Pt 2)) (Some (Pt 0))
                                   (st_line_spacing_x10 (d_normal doc)))
                         (d_body doc) in
  (* header block *)
  ht ← header_table d;
  let doc := add_block (BTable ht) doc in
  let spacer := new_paragraph in
  let spacer := set_space_before (Pt 6) spacer in
  let spacer := set_space_after (Pt 0) spacer in
  let doc := add_block (BParagraph spacer) doc in
  (* key skills *)
  let doc := _add_section_heading doc "KEY SKILLS" in
  st ← skills_table (skills d);
  let doc := add_block (BTable st) doc in
  let doc := _add_spacer doc 4 in
  (* professional experience *)
  let doc := _add_section_heading doc "PROFESSIONAL EXPERIENCE" in
  doc ← for_each _add_job_entry doc (jobs d);
  (* military service *)
  let doc := _add_section_heading doc "MILITARY SERVICE" in
  doc ← for_each _add_job_entry doc (military d);
  (* education & certifications *)
  let doc := _add_section_heading doc "EDUCATION & CERTIFICATIONS" in
  et ← education_table d;
  Ok (add_block (BTable et) doc).

End Resume.

(* ===================================================================== *)
(** ** scripts/build-coverletter-docx.py *)
(* ===================================================================== *)

Module CoverLetter.

Definition PRIMARY : RGBColor := RGB 0x0D 0x6E 0x6E.
Definition SECONDARY : RGBColor := RGB 0x14 0x91 0x9B.
Definition ACCENT : RGBColor := RGB 0x1A 0x3A 0x3A.
Definition DARK : RGBColor := RGB 0x2C 0x3E 0x50.
Definition WHITE : RGBColor := RGB 0xFF 0xFF 0xFF.
Definition GRAY : RGBColor := RGB 0x66 0x66 0x66.

Record data := mk_data {
  name : string;
  title : string;
  contacts : list string;
  date : string;
  badge : string;
  recipient_lines : list string;
  salutation : string;
  paragraphs : list string;
  regards : string;
  signature : string;
  credential : string
}.

(** *** Extraction *)

(** The recipient loop: badge spans and line breaks are skipped, every
    other child contributes its stripped text when that is not empty. *)
Definition recipient_step (acc : list string) (child : node) : list string :=
  match child with
  | Tag nm cls _ =>
      if String.eqb nm "span" && existsb (String.eqb "company-badge") cls then acc
      else if String.eqb nm "br" then acc
      else
        let text := get_text "" child in
        if truthy text then acc ++ [text] else acc
  | NavigableString _ =>
      let text := get_text "" child in
      if truthy text then acc ++ [text] else acc
  end.

Definition collect_texts (els : list node) : list string :=
  foldl (fun acc child =>
           let text := get_text "" child in
           if truthy text then acc ++ [text] else acc) [] els.

Definition parse_cover_letter (soup : node) : result data :=
  header ← deref (find "div" (Some "header") soup);
  h1 ← deref (find "h1" None header);
  let name := get_text "" h1 in
  title_el ← deref (find "div" (Some "title") header);
  let title := get_text "" title_el in
  contact_row ← deref (find "div" (Some "contact-row") header);
  let contacts := collect_texts (children contact_row) in
  content ← deref (find "div" (Some "content") soup);
  date_el ← deref (find "div" (Some "date") content);
  let date := get_text "" date_el in
  recipient ← deref (find "div" (Some "recipient") content);
  let badge_el := find "span" (Some "company-badge") recipient in
  let badge := match badge_el with Some b => get_text "" b | None => "" end in
  let recipient_lines := foldl recipient_step [] (children recipient) in
  salutation_el ← deref (find "div" (Some "salutation") content);
  let salutation := get_text "" salutation_el in
  body ← deref (find "div" (Some "body") content);
  let paragraphs := map (get_text "") (find_all "p" None body) in
  closing ← deref (find "div" (Some "closing") content);
  regards_el ← deref (find "div" (Some "regards") closing);
  signature_el ← deref (find "div" (Some "signature") closing);
  credential_el ← deref (find "div" (Some "credential") closing);
  Ok (mk_data name title contacts date badge recipient_lines salutation paragraphs
              (get_text "" regards_el) (get_text "" signature_el)
              (get_text "" credential_el)).

(** *** Rendering *)

Definition set_cell_shading (color_hex : string) (c : cell) : cell :=
  tcPr_append (Shd color_hex) c.

Definition remove_table_borders (t : table) : table :=
  set_tblPr (t_tblPr t ++ [TblBorders_none]) t.

Definition set_cell_margins (top bottom left right : Z) (c : cell) : cell :=
  tcPr_append (TcMar (top * 20) (left * 20) (bottom * 20) (right * 20)) c.

Definition make_run (text : string) (bold italic : bool) (color : option RGBColor)
    (size : option Z) : run :=
  mk_run text bold italic color
         (match size with Some s => if s =? 0 then None else Some s | None => None end)
         None false.

Definition add_run (p : paragraph) (text : string) (bold italic : bool)
    (color : option RGBColor) (size : option Z) : paragraph :=
  append_run (make_run text bold italic color size) p.

Definition add_bottom_border (color_hex : string) (p : paragraph) : paragraph :=
  set_bottom_border color_hex p.

Definition add_contact_runs (p : paragraph) (contacts : list string) : paragraph :=
  foldl (fun p '(i, contact) =>
           let p := if (0 <? i)%nat
                    then add_run p "    " false false (Some WHITE) (Some (Pt 9))
                    else p in
           add_run p contact false false (Some WHITE) (Some (Pt 9)))
        p (enumerate contacts).

Definition header_table (d : data) : result table :=
  let t := new_table 1 1 in
  let t := set_table_alignment 1 t in
  let t := remove_table_borders t in
  t ← with_cell 0 0
        (fun c => Ok (set_cell_margins 14 14 10 10 (set_cell_shading "0D6E6E" c))) t;
  let t := set_tblPr (filter (fun x => x ≠ TblW_auto) (t_tblPr t) ++ [TblW_auto]) t in
  with_cell 0 0
    (fun c =>
       c ← with_paragraph0
             (fun p =>
                let p := set_alignment CENTER p in
                let p := set_space_after (Pt 2) p in
                let p := set_space_before (Pt 4) p in
                add_run p (name d) true false (Some WHITE) (Some (Pt 22))) c;
       let p := new_paragraph in
       let p := set_alignment CENTER p in
       let p := set_space_after (Pt 8) p in
       let p := set_space_before (Pt 0) p in
       let p := append_run (set_all_caps (make_run (title d) false false (Some WHITE)
                                                   (Some (Pt 11)))) p in
       let c := cell_add_paragraph p c in
       let p := new_paragraph in
       let p := set_alignment CENTER p in
       let p := set_space_after (Pt 4) p in
       let p := set_space_before (Pt 0) p in
       let p := add_contact_runs p (contacts d) in
       Ok (cell_add_paragraph p c)) t.

(** The optional badge paragraph: [if data["badge"]: ...]. *)
Definition add_badge (d : data) (doc : document) : document :=
  if truthy (badge d) then
    let p := new_paragraph in
    let p := set_space_after (Pt 6) p in
    let p := add_run p (badge d) true false (Some PRIMARY) (Some (Pt 9)) in
    add_block (BParagraph p) doc
  else doc.

(** One turn of [for line in data["recipient_lines"]]: the line is bold
    and coloured when [line == data["recipient_lines"][0]]. *)
Definition add_recipient_line (lines : list string) (doc : document) (line : string)
    : result document :=
  let p := new_paragraph in
  let p := set_space_after (Pt 1) p in
  let p := set_space_before (Pt 1) p in
  first ← index lines 0;
  let p := if String.eqb line first
           then add_run p line true false (Some PRIMARY) (Some (Pt 11))
           else add_run p line false false (Some DARK) (Some (Pt 11)) in
  Ok (add_block (BParagraph p) doc).

Definition add_recipient_lines (d : data) (doc : document) : result document :=
  for_each (add_recipient_line (recipient_lines d)) doc (recipient_lines d).

Definition body_paragraph (para_text : string) : paragraph :=
  let p := new_paragraph in
  let p := set_space_after (Pt 10) p in
  let p := set_space_before (Pt 0) p in
  let p := set_alignment JUSTIFY p in
  add_run p para_text false false (Some DARK) (Some (Pt 11)).

Definition footer_paragraphs : list block :=
  let p := new_paragraph in
  let p := set_space_before (Pt 20) p in
  let p := set_alignment CENTER p in
  let divider := add_bottom_border "E8F4F4" p in
  let p := new_paragraph in
  let p := set_alignment CENTER p in
  let p := set_space_before (Pt 8) p in
  let p := add_run p "View Resume: " false false (Some GRAY) (Some (Pt 9)) in
  let p := add_run p "mattbfit.net/resume.html" true false (Some PRIMARY) (Some (Pt 9)) in
  let p := add_run p "  |  " false false (Some GRAY) (Some (Pt 9)) in
  let p := add_run p "Training Videos: " false false (Some GRAY) (Some (Pt 9)) in
  let p := add_run p "mattbfit.net/#showcase" true false (Some PRIMARY) (Some (Pt 9)) in
  [BParagraph divider; BParagraph p].

(** [build_docx(data, output_path)] up to [doc.save]. *)
Definition build_docx (d : data) : result document :=
  let doc := Document in
  let doc := mk_document (mk_margins (Some (Cm10 20)) (Some (Cm10 20))
                                     (Some (Cm10 25)) (Some (Cm10 25)))
                         (d_normal doc) (d_body doc) in
  let doc := mk_document (d_section doc)
                         (mk_style (Some "Calibri") (Some (Pt 11)) (Some DARK)
                                   (Some (Pt 0)) (Some (Pt 0)) (Some 16))
                         (d_body doc) in
  ht ← header_table d;
  let doc := add_block (BTable ht) doc in
  (* date *)
  let p := new_paragraph in
  let p := set_alignment RIGHT p in
  let p := set_space_before (Pt 18) p in
  let p := set_space_after (Pt 14) p in
  let p := add_run p (date d) false false (Some GRAY) (Some (Pt 10)) in
  let doc := add_block (BParagraph p) doc in
  (* recipient *)
  let doc := add_badge d doc in
  doc ← add_recipient_lines d doc;
  (* salutation *)
  let p := new_paragraph in
  let p := set_space_before (Pt 14) p in
  let p := set_space_after (Pt 10) p in
  let p := add_run p (salutation d) true false (Some ACCENT) (Some (Pt 11)) in
  let doc := add_block (BParagraph p) doc in
  (* body *)
  let doc := foldl (fun doc para_text => add_block (BParagraph (body_paragraph para_text)) doc)
                   doc (paragraphs d) in
  (* closing *)
  let p := new_paragraph in
  let p := set_space_before (Pt 14) p in
  let p := set_space_after (Pt 4) p in
  let p := add_run p (regards d) false true (Some DARK) (Some (Pt 11)) in
  let doc := add_block (BParagraph p) doc in
  let p := new_paragraph in
  let p := set_space_after (Pt 2) p in
  let p := add_run p (signature d) true false (Some PRIMARY) (Some (Pt 14)) in
  let doc := add_block (BParagraph p) doc in
  let p := new_paragraph in
  let p := set_space_after (Pt 0) p in
  let p := add_run p (credential d) false false (Some GRAY) (Some (Pt 10)) in
  let doc := add_block (BParagraph p) doc in
  (* footer *)
  Ok (foldl (fun doc b => add_block b doc) doc footer_paragraphs).

End CoverLetter.

(* ===================================================================== *)
(** ** The [__main__] blocks *)
(* ===================================================================== *)

Module Cli.

(** What a run can observe and change: the bytes of the files, which
    paths can be written, the clock, and what was printed. *)
Record world := mk_world {
  files : gmap string string;
  writable : string → bool;
  clock : Z;
  stdout : list string
}.

Section Main.

(** The two libraries at the ends of the pipeline.  [BeautifulSoup bytes]
    is [BeautifulSoup(f.read(), "lxml")]: decoding the bytes of the file
    (which may raise) and parsing the text into a tree.  [docx_bytes now doc]
    is the package [doc.save] writes at time [now]; the time only reaches
    the metadata of the package. *)
Variable BeautifulSoup : string → result node.
Variable docx_bytes : Z → document → string.

(** One script: its extractor, its renderer and its default paths. *)
Context {D : Type}.
Variable parse : node → result D.
Variable build : D → result document.
Variable default_html default_output : string.

(** [sys.argv[i] if len(sys.argv) > i else dflt] *)
Definition arg_or (argv : list string) (i : nat) (dflt : string) : string :=
  if (i <? length argv)%nat then default dflt (argv !! i) else dflt.

(** [with open(html_path, "r") as f: soup = BeautifulSoup(f.read(), "lxml")] *)
Definition read_soup (w : world) (html_path : string) : result node :=
  match files w !! html_path with
  | Some bytes => BeautifulSoup bytes
  | None => Raise FileNotFoundError
  end.

(** [doc.save(output_path)] *)
Definition save (doc : document) (output_path : string) (w : world) : result world :=
  if writable w output_path
  then Ok (mk_world (<[output_path := docx_bytes (clock w) doc]> (files w))
                    (writable w) (clock w) (stdout w))
  else Raise PermissionError.

Definition print (msg : string) (w : world) : world :=
  mk_world (files w) (writable w) (clock w) (stdout w ++ [msg]).

(** Where the interpreter stands in the three statements of the block. *)
Inductive pc :=
| Extracting                  (* about to run [data = parse(html_path)] *)
| Rendering (data : D)        (* about to run [build_docx(data, output_path)] *)
| Reporting                   (* about to run [print(...)] *)
| Finished                    (* fell off the end: exit status 0 *)
| Uncaught (e : exception).   (* traceback: exit status 1 *)

Definition exit_status (p : pc) : option Z :=
  match p with
  | Finished => Some 0
  | Uncaught _ => Some 1
  | _ => None
  end.

(** [data = parse(html_path)]: reading the file, then extracting. *)
Definition extract (argv : list string) (w : world) : result D :=
  soup ← read_soup w (arg_or argv 1 default_html); parse soup.

(** The document a run builds from the file, before it is saved. *)
Definition render (argv : list string) (w : world) : result document :=
  data ← extract argv w; build data.

Definition step (argv : list string) (c : pc * world) : pc * world :=
  let output_path := arg_or argv 2 default_output in
  let '(p, w) := c in
  match p with
  | Extracting =>
      match extract argv w with
      | Ok data => (Rendering data, w)
      | Raise e => (Uncaught e, w)
      end
  | Rendering data =>
      match doc ← build data; save doc output_path w with
      | Ok w' => (Reporting, w')
      | Raise e => (Uncaught e, w)
      end
  | Reporting => (Finished, print ("Generated " +:+ output_path) w)
  | Finished | Uncaught _ => c
  end.

(** The states a run goes through, from the first statement on. *)
Definition trace (argv : list string) (w : world) : list (pc * world) :=
  let c0 := (Extracting, w) in
  let c1 := step argv c0 in
  let c2 := step argv c1 in
  let c3 := step argv c2 in
  [c0; c1; c2; c3].

Definition main (argv : list string) (w : world) : pc * world :=
  step argv (step argv (step argv (Extracting, w))).

Definition is_rendering (c : pc * world) : bool :=
  match c.1 with Rendering _ => true | _ => false end.

End Main.

Arguments Extracting {D}.
Arguments Reporting {D}.
Arguments Finished {D}.
Arguments Uncaught {D} e.

(** [build-resume-docx.py] *)
Definition resume_main BeautifulSoup docx_bytes :=
  main BeautifulSoup docx_bytes Resume.parse_resume Resume.build_docx
       "resume.html" "resume.docx".
Definition resume_trace BeautifulSoup docx_bytes :=
  trace BeautifulSoup docx_bytes Resume.parse_resume Resume.build_docx
        "resume.html" "resume.docx".
Definition resume_extract BeautifulSoup :=
  extract BeautifulSoup Resume.parse_resume "resume.html".
Definition resume_render BeautifulSoup :=
  render BeautifulSoup Resume.parse_resume Resume.build_docx "resume.html".

(** [build-coverletter-docx.py] *)
Definition coverletter_main BeautifulSoup docx_bytes :=
  main BeautifulSoup docx_bytes CoverLetter.parse_cover_letter CoverLetter.build_docx
       "neuroworks.html" "neuroworks.docx".
Definition coverletter_trace BeautifulSoup docx_bytes :=
  trace BeautifulSoup docx_bytes CoverLetter.parse_cover_letter CoverLetter.build_docx
        "neuroworks.html" "neuroworks.docx".
Definition coverletter_extract BeautifulSoup :=
  extract BeautifulSoup CoverLetter.parse_cover_letter "neuroworks.html".
Definition coverletter_render BeautifulSoup :=
  render BeautifulSoup CoverLetter.parse_cover_letter CoverLetter.build_docx
         "neuroworks.html".

End Cli.

(* ===================================================================== *)
(** ** Sample inputs *)
(* ===================================================================== *)

Module Samples.

Definition txt (s : string) : node := NavigableString s.
Definition el (nm cls : string) (cs : list node) : node := Tag nm [cls] cs.

Definition job1 : node :=
  el "div" "job"
    [ el "div" "job-header"
        [ el "span" "job-title" [txt " Operations Lead "];
          el "span" "job-company" [txt "Acme"];
          el "span" "job-date" [txt "2019 - 2024"] ];
      el "ul" "job-bullets"
        [ Tag "li" [] [txt "Ran the floor"]; Tag "li" [] [txt " Cut costs "] ] ].

Definition resume_soup : node :=
  Tag "[document]" []
    [ el "div" "header"
        [ Tag "h1" [] [txt "Jane Doe"];
          el "div" "title" [txt "Operations Lead"];
          el "div" "contact-row"
            [ txt "
  "; Tag "span" [] [txt "jane@example.org"]; txt " ";
              Tag "span" [] [txt "555-0100"]; Tag "span" [] [txt "Springfield"] ] ];
      el "div" "skills-grid"
        [ el "div" "skill-item" [txt "Scheduling"];
          el "div" "skill-item" [txt "Budgeting"];
          el "div" "skill-item" [txt "Coaching"] ];
      el "div" "section"
        [ el "div" "section-title" [txt "Professional Experience"]; job1 ];
      el "div" "section"
        [ el "div" "section-title" [txt "Volunteering"];
          el "div" "job" [txt "no header here"] ];
      el "div" "section" [ txt "untitled" ] ].

End Samples.

(* ===================================================================== *)
(** ** Reading a rendered document back *)
(* ===================================================================== *)

Module Readers.










End Readers.
Export Readers.

(* ===================================================================== *)
(** ** Closed forms of rendered pieces *)
(* ===================================================================== *)

Module Forms.

(** The properties [add_table] and [remove_table_borders] leave on a table. *)
Definition borderless : list tbl_prop := [TblW_auto; TblLook; TblBorders_none].

(** The header table of one job entry, as [_add_job_entry] leaves it. *)
Definition job_header_table (j : Resume.job) : table :=
  mk_table None borderless
    [[ mk_cell [] [Resume.job_left_paragraph j new_paragraph];
       mk_cell [TcW 2160] [Resume.job_right_paragraph j new_paragraph] ]].

(** The blocks one job entry adds to the body. *)
Definition job_blocks (j : Resume.job) : list block :=
  BTable (job_header_table j)
  :: map (fun b => BParagraph (Resume.bullet_paragraph b)) (Resume.j_bullets j).


End Forms.
Export Forms.

Module Extracted.

(** [el.get_text(strip=True) if el else ""] *)
Definition text_or_empty (el : option node) : string :=
  match el with Some e => get_text "" e | None => "" end.

(** The texts of the items of a bullet list, if the list is there. *)
Definition bullet_texts (ul : option node) : list string :=
  match ul with
  | Some u => map (get_text "") (find_all "li" None u)
  | None => []
  end.

(** The job record a job element with header sub-block [header] stands for. *)
Definition job_of_html (job_div header : node) : Resume.job :=
  Resume.mk_job
    (text_or_empty (find "span" (Some "job-title") header))
    (text_or_empty (find "span" (Some "job-company") header))
    (text_or_empty (find "span" (Some "job-date") header))
    (bullet_texts (find "ul" (Some "job-bullets") job_div)).

End Extracted.
Export Extracted.

Module Grid.

(** A grid cell after the skills loop has visited it. *)
Definition skill_cell (skill : string) : cell :=
  mk_cell [] [Resume.skill_paragraph skill new_paragraph].


(** A row of the grid as [add_table] creates it. *)
Definition empty_row : list cell := [new_cell; new_cell].

(** The rows of the skills grid, two skills to a row. *)
Fixpoint skills_rows (skills : list string) : list (list cell) :=
  match skills with
  | [] => []
  | [a] => [[skill_cell a; new_cell]]
  | a :: b :: rest => [skill_cell a; skill_cell b] :: skills_rows rest
  end.

End Grid.
Export Grid.

Module ResumeForms.

(** The paragraph [_add_section_heading] adds. *)
Definition heading (text : string) : block :=
  BParagraph
    (Resume.add_bottom_border "0D6E6E"
       (Resume.add_run (set_space_after (Pt 6) (set_space_before (Pt 10) new_paragraph))
                       text true (Some Resume.PRIMARY) (Some (Pt 12)))).

(** The paragraph [_add_spacer] adds. *)
Definition spacer (pts : Z) : block :=
  BParagraph (set_space_after (Pt pts) (set_space_before (Pt 0) new_paragraph)).

(** The spacer paragraph after the header block. *)
Definition header_spacer : block :=
  BParagraph (set_space_after (Pt 0) (set_space_before (Pt 6) new_paragraph)).

(** The contact paragraph before the contact loop runs. *)
Definition contact_base : paragraph :=
  set_space_before (Pt 0) (set_space_after (Pt 4) (set_alignment CENTER new_paragraph)).


(** The three paragraphs of the header cell. *)
Definition header_paragraphs (d : Resume.data) : list paragraph :=
  [ Resume.add_run (set_space_before (Pt 4) (set_space_after (Pt 2)
                      (set_alignment CENTER new_paragraph)))
                   (Resume.name d) true (Some Resume.WHITE) (Some (Pt 22));
    append_run (set_all_caps (Resume.make_run (Resume.title d) false (Some Resume.WHITE)
                                              (Some (Pt 11)) None))
               (set_space_before (Pt 0) (set_space_after (Pt 8)
                  (set_alignment CENTER new_paragraph)));
    Resume.add_contact_runs contact_base (Resume.contacts d) ].

Definition header_form (d : Resume.data) : table :=
  mk_table (Some 1) [TblLook; TblBorders_none; TblW_auto]
    [[ mk_cell [Shd "0D6E6E"; TcMar 280 200 280 200] (header_paragraphs d) ]].

(** A column of the education table: the label, then one paragraph per item. *)
Definition label_paragraph (label : string) : paragraph :=
  Resume.add_run (set_space_after (Pt 4) new_paragraph) label true
                 (Some Resume.DARK) (Some (Pt 10)).
Definition item_paragraph (item : string) : paragraph :=
  Resume.add_run (set_space_before (Pt 1) (set_space_after (Pt 3) new_paragraph))
                 item false (Some Resume.DARK) (Some (Pt 9)).

Definition education_form (d : Resume.data) : table :=
  mk_table None borderless
    [[ mk_cell [] (label_paragraph "Education"
                   :: map item_paragraph (default [] (Resume.education d !! "left")));
       mk_cell [] (label_paragraph "Certifications"
                   :: map item_paragraph (default [] (Resume.education d !! "right"))) ]].

(** The body of the document [build_docx] saves. *)
Definition resume_body (d : Resume.data) : list block :=
  [ BTable (header_form d); header_spacer;
    heading "KEY SKILLS"; BTable (mk_table None borderless (skills_rows (Resume.skills d)));
    spacer 4;
    heading "PROFESSIONAL EXPERIENCE" ]
  ++ flat_map job_blocks (Resume.jobs d)
  ++ [ heading "MILITARY SERVICE" ]
  ++ flat_map job_blocks (Resume.military d)
  ++ [ heading "EDUCATION & CERTIFICATIONS"; BTable (education_form d) ].

End ResumeForms.
Export ResumeForms.

Module CoverForms.


Definition header_paragraphs (d : CoverLetter.data) : list paragraph :=
  [ CoverLetter.add_run (set_space_before (Pt 4) (set_space_after (Pt 2)
                           (set_alignment CENTER new_paragraph)))
                        (CoverLetter.name d) true false (Some CoverLetter.WHITE)
                        (Some (Pt 22));
    append_run (set_all_caps (CoverLetter.make_run (CoverLetter.title d) false false
                                (Some CoverLetter.WHITE) (Some (Pt 11))))
               (set_space_before (Pt 0) (set_space_after (Pt 8)
                  (set_alignment CENTER new_paragraph)));
    CoverLetter.add_contact_runs contact_base (CoverLetter.contacts d) ].

Definition header_form (d : CoverLetter.data) : table :=
  mk_table (Some 1) [TblLook; TblBorders_none; TblW_auto]
    [[ mk_cell [Shd "0D6E6E"; TcMar 280 200 280 200] (header_paragraphs d) ]].

Definition date_block (d : CoverLetter.data) : block :=
  BParagraph
    (CoverLetter.add_run
       (set_space_after (Pt 14) (set_space_before (Pt 18)
          (set_alignment RIGHT new_paragraph)))
       (CoverLetter.date d) false false (Some CoverLetter.GRAY) (Some (Pt 10))).

(** The paragraph the badge branch adds. *)
Definition badge_block (d : CoverLetter.data) : block :=
  BParagraph
    (CoverLetter.add_run (set_space_after (Pt 6) new_paragraph)
       (CoverLetter.badge d) true false (Some CoverLetter.PRIMARY) (Some (Pt 9))).

(** The two ways a recipient line is rendered. *)
Definition recipient_base : paragraph :=
  set_space_before (Pt 1) (set_space_after (Pt 1) new_paragraph).
Definition emphasized_line (line : string) : block :=
  BParagraph (CoverLetter.add_run recipient_base line true false
                (Some CoverLetter.PRIMARY) (Some (Pt 11))).
Definition plain_line (line : string) : block :=
  BParagraph (CoverLetter.add_run recipient_base line false false
                (Some CoverLetter.DARK) (Some (Pt 11))).

(** The paragraph one turn of the recipient loop adds, [first] being
    [data["recipient_lines"][0]]. *)
Definition recipient_block (first line : string) : block :=
  if String.eqb line first then emphasized_line line else plain_line line.

Definition salutation_block (d : CoverLetter.data) : block :=
  BParagraph
    (CoverLetter.add_run (set_space_after (Pt 10) (set_space_before (Pt 14) new_paragraph))
       (CoverLetter.salutation d) true false (Some CoverLetter.ACCENT) (Some (Pt 11))).

Definition closing_blocks (d : CoverLetter.data) : list block :=
  [ BParagraph
      (CoverLetter.add_run (set_space_after (Pt 4) (set_space_before (Pt 14) new_paragraph))
         (CoverLetter.regards d) false true (Some CoverLetter.DARK) (Some (Pt 11)));
    BParagraph
      (CoverLetter.add_run (set_space_after (Pt 2) new_paragraph)
         (CoverLetter.signature d) true false (Some CoverLetter.PRIMARY) (Some (Pt 14)));
    BParagraph
      (CoverLetter.add_run (set_space_after (Pt 0) new_paragraph)
         (CoverLetter.credential d) false false (Some CoverLetter.GRAY) (Some (Pt 10))) ].

(** The blocks after the date line and before the salutation. *)
Definition recipient_blocks (d : CoverLetter.data) : list block :=
  (if truthy (CoverLetter.badge d) then [badge_block d] else [])
  ++ map (recipient_block (default "" (head (CoverLetter.recipient_lines d))))
         (CoverLetter.recipient_lines d).

(** The body of the document the cover-letter [build_docx] saves. *)
Definition cover_body (d : CoverLetter.data) : list block :=
  [ BTable (header_form d); date_block d ]
  ++ recipient_blocks d
  ++ [ salutation_block d ]
  ++ map (fun t => BParagraph (CoverLetter.body_paragraph t)) (CoverLetter.paragraphs d)
  ++ closing_blocks d
  ++ CoverLetter.footer_paragraphs.

End CoverForms.

Module SampleData.

Import Samples.

(** A letter whose recipient block repeats the company name on its last
    line. *)
Definition cover_soup : node :=
  Tag "[document]" []
    [ el "div" "header"
        [ Tag "h1" [] [txt "Jane Doe"];
          el "div" "title" [txt "Operations Lead"];
          el "div" "contact-row"
            [ Tag "span" [] [txt "jane@example.org"]; Tag "span" [] [txt "555-0100"] ] ];
      el "div" "content"
        [ el "div" "date" [txt "March 3, 2025"];
          el "div" "recipient"
            [ txt "Acme Corp"; Tag "br" [] [];
              txt "Attn: Hiring"; Tag "br" [] [];
              txt "Acme Corp" ];
          el "div" "salutation" [txt "Dear team,"];
          el "div" "body" [ Tag "p" [] [txt "First."]; Tag "p" [] [txt "Second."] ];
          el "div" "closing"
            [ el "div" "regards" [txt "Regards,"];
              el "div" "signature" [txt "Jane Doe"];
              el "div" "credential" [txt "PMP"] ] ] ].

Definition cover_data : CoverLetter.data :=
  CoverLetter.mk_data "Jane Doe" "Operations Lead" ["jane@example.org"; "555-0100"]
    "March 3, 2025" "" ["Acme Corp"; "Attn: Hiring"; "Acme Corp"] "Dear team,"
    ["First."; "Second."] "Regards," "Jane Doe" "PMP".

Definition resume_data : Resume.data :=
  Resume.mk_data "Jane Doe" "Operations Lead"
    ["jane@example.org"; "555-0100"; "Springfield"]
    ["Scheduling"; "Budgeting"; "Coaching"]
    [Resume.mk_job "Operations Lead" "Acme" "2019 - 2024" ["Ran the floor"; "Cut costs"]]
    [] ∅.

End SampleData.

(* ===================================================================== *)
(** ** The elements the extractors cannot do without *)
(* ===================================================================== *)

Module Required.

Definition present (el : option node) : bool :=
  match el with Some _ => true | None => false end.

(** The text of the title element of a section, if it has one. *)
Definition section_title_text (section : node) : option string :=
  get_text "" <$> find "div" (Some "section-title") section.

(** The three titles the résumé extractor acts on. *)
Definition recognized_titles : list string :=
  ["Professional Experience"; "Military Service"; "Education & Certifications"].

Definition recognized (section : node) : bool :=
  match section_title_text section with
  | Some t => existsb (String.eqb t) recognized_titles
  | None => false
  end.

Definition job_has_header (job_div : node) : bool :=
  present (find "div" (Some "job-header") job_div).

(** What a section must contain for its turn of the loop not to raise:
    a header in every job of a job section, and two columns in the
    two-column block of the education section. *)
Definition section_ok (section : node) : bool :=
  match section_title_text section with
  | None => true
  | Some t =>
      if String.eqb t "Professional Experience" then
        forallb job_has_header (find_all "div" (Some "job") section)
      else if String.eqb t "Military Service" then
        forallb job_has_header (find_all "div" (Some "job") section)
      else if String.eqb t "Education & Certifications" then
        match find "div" (Some "two-column") section with
        | Some two_col => (2 <=? length (find_all_children "div" two_col))%nat
        | None => false
        end
      else true
  end.

(** The header block with its name, title and contact row. *)
Definition header_ok (soup : node) : bool :=
  match find "div" (Some "header") soup with
  | Some header =>
      present (find "h1" None header)
      && present (find "div" (Some "title") header)
      && present (find "div" (Some "contact-row") header)
  | None => false
  end.

(** The résumé has every element [parse_resume] dereferences. *)
Definition resume_well_formed (soup : node) : bool :=
  header_ok soup
  && present (find "div" (Some "skills-grid") soup)
  && forallb section_ok (find_all "div" (Some "section") soup).

(** The cover letter has every element [parse_cover_letter] dereferences. *)
Definition cover_well_formed (soup : node) : bool :=
  header_ok soup
  && match find "div" (Some "content") soup with
     | Some content =>
         present (find "div" (Some "date") content)
         && present (find "div" (Some "recipient") content)
         && present (find "div" (Some "salutation") content)
         && present (find "div" (Some "body") content)
         && match find "div" (Some "closing") content with
            | Some closing =>
                present (find "div" (Some "regards") closing)
                && present (find "div" (Some "signature") closing)
                && present (find "div" (Some "credential") closing)
            | None => false
            end
     | None => false
     end.

End Required.
Export Required.

Module RunSamples.

(** A page without header block. *)
Definition headless_soup : node :=
  Tag "[document]" [] [ Samples.el "div" "content" [Samples.txt "Hello"] ].

(** A parser that knows three files by their bytes. *)
Definition sample_parser (bytes : string) : result node :=
  if String.eqb bytes "<resume/>" then Ok Samples.resume_soup
  else if String.eqb bytes "<letter/>" then Ok SampleData.cover_soup
  else if String.eqb bytes "<div class=content>Hello</div>" then Ok headless_soup
  else Raise UnicodeDecodeError.

(** A writer that stamps the time in front of the text of the body. *)
Definition block_text (b : block) : string :=
  match b with
  | BParagraph p => paragraph_text p
  | BTable _ => "<table>"
  end.
Definition sample_writer (now : Z) (doc : document) : string :=
  (if now =? 0 then "t0:" else "t1:") +:+ join "|" (map block_text (d_body doc)).

Definition argv : list string := ["build-resume-docx.py"].

Definition headless_world : Cli.world :=
  Cli.mk_world {[ "resume.html" := "<div class=content>Hello</div>" ]}
               (fun _ => true) 0 [].

Definition good_world (now : Z) (extra : list string) : Cli.world :=
  Cli.mk_world {[ "resume.html" := "<resume/>"; "neuroworks.html" := "<letter/>" ]}
               (fun _ => true) now extra.

End RunSamples.

(* ===================================================================== *)
(** ** Texts of a rendered document, and the job elements of a page *)
(* ===================================================================== *)

Module Texts.






End Texts.
Export Texts.

Module Sections.

(** The job elements of the sections of a page whose title text is [t],
    in the order the section loop meets them. *)
Definition job_divs_titled (t : string) (soup : node) : list node :=
  flat_map (fun s => if decide (section_title_text s = Some t)
                     then find_all "div" (Some "job") s
                     else [])
           (find_all "div" (Some "section") soup).

(** The non-empty stripped texts of a list of page elements. *)
Definition nonempty_texts (els : list node) : list string :=
  filter (fun t => t ≠ "") (map (get_text "") els).

(** Is a child of the recipient block one the recipient loop passes over
    (a badge span or a line break)? *)
Definition skipped_child (child : node) : bool :=
  match child with
  | Tag nm cls _ =>
      (String.eqb nm "span" && existsb (String.eqb "company-badge") cls)
      || String.eqb nm "br"
  | NavigableString _ => false
  end.

End Sections.
Export Sections.

Module Certs.

(** The texts of the certificate items of one column, fragments joined
    by a space. *)
Definition cert_texts (col : node) : list string :=
  map (get_text " ") (find_all "div" (Some "cert-item") col).

End Certs.
Export Certs.

Module EducationSample.

Import Samples.


End EducationSample.

(* ===================================================================== *)
(** * Properties *)
(* ===================================================================== *)

(** ** Loops and indexing *)

Section loops.
Context {A S : Type}.

Lemma for_each_app (body : S → A → result S) (s : S) (xs ys : list A) :
  for_each body s (xs ++ ys) = (s' ← for_each body s xs; for_each body s' ys).
Proof.
  revert s. induction xs as [|x xs IH]; intros s; simpl; [done|].
  destruct (body s x); simpl; auto.
Qed.

(** A loop whose body never raises is a left fold. *)
Lemma for_each_total (body : S → A → result S) (g : S → A → S) (s : S) (xs : list A) :
  (∀ s x, body s x = Ok (g s x)) → for_each body s xs = Ok (foldl g s xs).
Proof.
  intros Hb. revert s. induction xs as [|x xs IH]; intros s; simpl; [done|].
  rewrite Hb. simpl. apply IH.
Qed.

(** A loop raises as soon as one turn does, and only then, when raising
    depends on the item alone. *)
Lemma for_each_is_ok (body : S → A → result S) (ok : A → bool) (s : S) (xs : list A) :
  (∀ s x, is_ok (body s x) = ok x) → is_ok (for_each body s xs) = forallb ok xs.
Proof.
  intros Hb. revert s. induction xs as [|x xs IH]; intros s; simpl; [done|].
  specialize (Hb s x). destruct (body s x) as [s'|e]; simpl in *; rewrite <- Hb; auto.
Qed.

Lemma for_each_filter (body : S → A → result S) (keep : A → bool) (s : S) (xs : list A) :
  (∀ s x, keep x = false → body s x = Ok s) →
  for_each body s (filter (fun x => keep x = true) xs) = for_each body s xs.
Proof.
  intros Hb. revert s. induction xs as [|x xs IH]; intros s; [done|].
  rewrite filter_cons. destruct (decide (keep x = true)) as [Hk|Hk]; simpl.
  - destruct (body s x); simpl; auto.
  - apply not_true_is_false in Hk. rewrite (Hb s x Hk). simpl. apply IH.
Qed.

End loops.

Lemma enumerate_from_app {A} (i : nat) (xs ys : list A) :
  enumerate_from i (xs ++ ys) = enumerate_from i xs ++ enumerate_from (i + length xs) ys.
Proof.
  revert i. induction xs as [|x xs IH]; intros i; simpl.
  - by rewrite Nat.add_0_r.
  - rewrite IH. do 3 f_equal. lia.
Qed.

Lemma foldl_add_block {A} (f : A → block) (doc : document) (xs : list A) :
  foldl (fun d x => add_block (f x) d) doc xs = set_body (d_body doc ++ map f xs) doc.
Proof.
  revert doc. induction xs as [|x xs IH]; intros doc; simpl.
  - destruct doc; unfold set_body; simpl. by rewrite app_nil_r.
  - rewrite IH. unfold set_body, add_block; simpl. by rewrite <- app_assoc.
Qed.

Lemma foldl_snoc {A B} (f : A → B) (acc : list B) (xs : list A) :
  foldl (fun acc x => acc ++ [f x]) acc xs = acc ++ map f xs.
Proof.
  revert acc. induction xs as [|x xs IH]; intros acc; simpl.
  - by rewrite app_nil_r.
  - rewrite IH. by rewrite <- app_assoc.
Qed.

Lemma truthy_false (s : string) : truthy s = false ↔ s = "".
Proof.
  unfold truthy. rewrite negb_false_iff. apply String.eqb_eq.
Qed.

Lemma truthy_true (s : string) : truthy s = true ↔ s ≠ "".
Proof.
  unfold truthy. rewrite negb_true_iff. apply String.eqb_neq.
Qed.

(** ** Job entries *)

Lemma _add_job_entry_eq (doc : document) (j : Resume.job) :
  Resume._add_job_entry doc j = Ok (set_body (d_body doc ++ job_blocks j) doc).
Proof.
  unfold Resume._add_job_entry. simpl.
  rewrite foldl_add_block. destruct doc; unfold set_body, job_blocks; simpl.
  by rewrite <- app_assoc.
Qed.

Lemma add_job_entries_eq (doc : document) (js : list Resume.job) :
  for_each Resume._add_job_entry doc js
  = Ok (set_body (d_body doc ++ flat_map job_blocks js) doc).
Proof.
  revert doc. induction js as [|j js IH]; intros doc.
  - destruct doc; unfold set_body; simpl. by rewrite app_nil_r.
  - cbn [for_each]. rewrite _add_job_entry_eq. cbn [mbind result_bind].
    rewrite IH. unfold set_body; simpl. by rewrite <- app_assoc.
Qed.


Lemma _parse_job_eq (job_div : node) :
  Resume._parse_job job_div
  = (header ← deref (find "div" (Some "job-header") job_div);
     Ok (job_of_html job_div header)).
Proof.
  unfold Resume._parse_job, job_of_html, text_or_empty, bullet_texts.
  destruct (find "div" (Some "job-header") job_div) as [header|]; simpl; [|done].
  destruct (find "ul" (Some "job-bullets") job_div) as [ul|]; [|done].
  by rewrite foldl_snoc.
Qed.







(** C5. When the header sub-block of a job element is present, the
    job-entry parser returns a record and never raises: each of the title,
    company and date sub-spans that is absent gives the empty string (and
    each one present gives its stripped text), and an absent bullet list
    gives the empty list. *)
Theorem parse_job_tolerates_missing_parts (job_div header : node) :
  find "div" (Some "job-header") job_div = Some header →
  ∃ j,
    Resume._parse_job job_div = Ok j
    ∧ j = job_of_html job_div header
    ∧ (find "span" (Some "job-title") header = None → Resume.j_title j = "")
    ∧ (find "span" (Some "job-company") header = None → Resume.j_company j = "")
    ∧ (find "span" (Some "job-date") header = None → Resume.j_date j = "")
    ∧ (find "ul" (Some "job-bullets") job_div = None → Resume.j_bullets j = []).
Proof.
  intros Hh. exists (job_of_html job_div header).
  rewrite _parse_job_eq, Hh. unfold job_of_html; simpl.
  repeat split; intros ->; reflexivity.
Qed.

Lemma parse_job_tolerates_missing_parts_witness :
  ∃ j, Resume._parse_job (Tag "div" ["job"] [Tag "div" ["job-header"] []]) = Ok j
       ∧ j = Resume.mk_job "" "" "" [].
Proof.
  destruct (parse_job_tolerates_missing_parts
              (Tag "div" ["job"] [Tag "div" ["job-header"] []])
              (Tag "div" ["job-header"] []))
    as (j & Hj & Heq & Ht & Hc & Hd & Hb).
  - reflexivity.
  - exists j. split; [exact Hj|]. rewrite Heq. reflexivity.
Defined.

Lemma join_empty_sep_3 (a b c : string) : join "" [a; b; c] = a +:+ b +:+ c.
Proof. reflexivity. Qed.



(** ** The skills grid *)

(** Linear arithmetic with division and remainder by a constant. *)
Ltac div_lia := zify; Z.div_mod_to_equations; lia.

Lemma list_pair_ind {A} (P : list A → Prop) :
  P [] → (∀ a, P [a]) → (∀ a b l, P l → P (a :: b :: l)) → ∀ l, P l.
Proof.
  intros H0 H1 H2 l.
  assert (P l ∧ ∀ a, P (a :: l)) as [Hl _]; [|exact Hl].
  induction l as [|x l [IH1 IH2]]; split; auto.
Qed.

Lemma index_middle {A} (l1 l2 : list A) (x : A) :
  index (l1 ++ x :: l2) (length l1) = Ok x.
Proof. unfold index. by rewrite list_lookup_middle. Qed.

Lemma with_cell_middle (done tl : list (list cell)) (row : list cell) (c : nat)
    (f : cell → result cell) (a : option Z) (ps : list tbl_prop) :
  with_cell (length done) c f (mk_table a ps (done ++ row :: tl))
  = (cl ← index row c; cl' ← f cl;
     Ok (mk_table a ps (done ++ <[c := cl']> row :: tl))).
Proof.
  unfold with_cell. cbn [t_rows t_alignment t_tblPr].
  rewrite index_middle. cbn [mbind result_bind].
  destruct (index row c) as [cl|]; cbn [mbind result_bind]; [|reflexivity].
  destruct (f cl) as [cl'|]; cbn [mbind result_bind]; [|reflexivity].
  rewrite insert_app_r_alt by lia. by rewrite Nat.sub_diag.
Qed.

Lemma with_cell_middle_ok (done tl : list (list cell)) (row : list cell) (c : nat)
    (f : cell → result cell) (a : option Z) (ps : list tbl_prop) (cl cl' : cell) :
  row !! c = Some cl → f cl = Ok cl' →
  with_cell (length done) c f (mk_table a ps (done ++ row :: tl))
  = Ok (mk_table a ps (done ++ <[c := cl']> row :: tl)).
Proof.
  intros Hc Hf. rewrite with_cell_middle. unfold index. rewrite Hc.
  cbn [mbind result_bind]. by rewrite Hf.
Qed.

Lemma half_double (q : nat) : (2 * q / 2 = q ∧ (2 * q) mod 2 = 0)%nat.
Proof. split; div_lia. Qed.

Lemma half_double_succ (q : nat) : (S (2 * q) / 2 = q ∧ S (2 * q) mod 2 = 1)%nat.
Proof. split; div_lia. Qed.

Lemma skills_loop (done : list (list cell)) (m : nat) (skills : list string)
    (a : option Z) (ps : list tbl_prop) :
  ((length skills + 1) / 2 ≤ m)%nat →
  for_each (fun t '(i, skill) =>
              with_cell (i / 2) (i mod 2)
                        (with_paragraph0 (Resume.skill_paragraph skill)) t)
           (mk_table a ps (done ++ replicate m empty_row))
           (enumerate_from (2 * length done) skills)
  = Ok (mk_table a ps (done ++ skills_rows skills
                            ++ replicate (m - (length skills + 1) / 2) empty_row)).
Proof.
  revert done m. induction skills as [|x|x y rest IH] using list_pair_ind;
    intros done m Hm.
  - change ((length (@nil string) + 1) / 2)%nat with 0%nat.
    rewrite Nat.sub_0_r. reflexivity.
  - change ((length [x] + 1) / 2)%nat with 1%nat in *.
    destruct m as [|m]; [lia|].
    cbn [enumerate_from for_each].
    destruct (half_double (length done)) as [-> ->].
    cbn [replicate].
    rewrite (with_cell_middle_ok _ _ _ _ _ _ _ new_cell (skill_cell x))
      by reflexivity.
    replace (S m - 1)%nat with m by lia. reflexivity.
  - assert (Hlen : ((length (x :: y :: rest) + 1) / 2
                    = S ((length rest + 1) / 2))%nat).
    { cbn [length]. div_lia. }
    rewrite Hlen in *. destruct m as [|m]; [lia|].
    cbn [enumerate_from for_each].
    destruct (half_double (length done)) as [-> ->].
    cbn [replicate].
    rewrite (with_cell_middle_ok _ _ _ _ _ _ _ new_cell (skill_cell x))
      by reflexivity.
    cbn [mbind result_bind].
    destruct (half_double_succ (length done)) as [-> ->].
    rewrite (with_cell_middle_ok _ _ _ _ _ _ _ new_cell (skill_cell y))
      by reflexivity.
    cbn [mbind result_bind].
    specialize (IH (done ++ [[skill_cell x; skill_cell y]]) m).
    rewrite length_app in IH. cbn [length] in IH.
    replace (2 * (length done + 1))%nat with (S (S (2 * length done))) in IH by lia.
    rewrite <- !app_assoc in IH. cbn [app] in IH.
    rewrite Nat.sub_succ. apply IH. lia.
Qed.

Lemma skills_table_eq (skills : list string) :
  Resume.skills_table skills = Ok (mk_table None borderless (skills_rows skills)).
Proof.
  unfold Resume.skills_table, enumerate.
  pose proof (skills_loop [] ((length skills + 1) / 2) skills None borderless) as H.
  cbn [app length Nat.mul] in H. rewrite Nat.sub_diag in H. cbn [replicate] in H.
  rewrite app_nil_r in H. rewrite <- H by lia. reflexivity.
Qed.

(** ** The body of the rendered résumé *)

Lemma header_table_eq (d : Resume.data) : Resume.header_table d = Ok (header_form d).
Proof. reflexivity. Qed.

Lemma foldl_cell_add_paragraph {A} (f : A → paragraph) (c : cell) (xs : list A) :
  foldl (fun c x => cell_add_paragraph (f x) c) c xs
  = mk_cell (c_tcPr c) (c_paragraphs c ++ map f xs).
Proof.
  revert c. induction xs as [|x xs IH]; intros c; simpl.
  - destruct c; simpl. by rewrite app_nil_r.
  - rewrite IH. simpl. by rewrite <- app_assoc.
Qed.

Lemma education_cell_eq (label key : string) (d : Resume.data) :
  Resume.education_cell label key d new_cell
  = Ok (mk_cell [] (label_paragraph label
                    :: map item_paragraph (default [] (Resume.education d !! key)))).
Proof.
  unfold Resume.education_cell. cbn [new_cell with_paragraph0 c_paragraphs c_tcPr].
  cbn [mbind result_bind].
  by rewrite (foldl_cell_add_paragraph item_paragraph).
Qed.

Lemma with_cell_first_row (tl : list (list cell)) (row : list cell) (c : nat)
    (f : cell → result cell) (a : option Z) (ps : list tbl_prop) (cl cl' : cell) :
  row !! c = Some cl → f cl = Ok cl' →
  with_cell 0 c f (mk_table a ps (row :: tl))
  = Ok (mk_table a ps (<[c := cl']> row :: tl)).
Proof. exact (with_cell_middle_ok [] tl row c f a ps cl cl'). Qed.

Lemma education_table_eq (d : Resume.data) :
  Resume.education_table d = Ok (education_form d).
Proof.
  unfold Resume.education_table.
  change (Resume.remove_table_borders (new_table 1 2))
    with (mk_table None borderless [[new_cell; new_cell]]).
  erewrite with_cell_first_row;
    [| reflexivity | apply (education_cell_eq "Education" "left")].
  cbn [mbind result_bind insert list_insert].
  erewrite with_cell_first_row;
    [| reflexivity | apply (education_cell_eq "Certifications" "right")].
  reflexivity.
Qed.

Lemma resume_build_docx_eq (d : Resume.data) :
  ∃ doc, Resume.build_docx d = Ok doc ∧ d_body doc = resume_body d.
Proof.
  unfold Resume.build_docx.
  rewrite header_table_eq. cbn [mbind result_bind].
  rewrite skills_table_eq. cbn [mbind result_bind].
  rewrite add_job_entries_eq. cbn [mbind result_bind].
  rewrite add_job_entries_eq. cbn [mbind result_bind].
  rewrite education_table_eq. cbn [mbind result_bind].
  eexists. split; [reflexivity|].
  unfold resume_body. simpl. rewrite <- !app_assoc. reflexivity.
Qed.

(** ** Job blocks of the rendered résumé *)



(** ** Layout of the skills grid *)









(** ** The body of the rendered cover letter *)

Lemma cover_header_table_eq (d : CoverLetter.data) :
  CoverLetter.header_table d = Ok (CoverForms.header_form d).
Proof. reflexivity. Qed.

Lemma add_recipient_line_eq (lines : list string) (first : string)
    (doc : document) (line : string) :
  head lines = Some first →
  CoverLetter.add_recipient_line lines doc line
  = Ok (add_block (CoverForms.recipient_block first line) doc).
Proof.
  intros Hh. unfold CoverLetter.add_recipient_line, index.
  destruct lines as [|x lines]; [done|]. simpl in Hh. inversion Hh; subst x.
  cbn [lookup list_lookup mbind result_bind]. unfold CoverForms.recipient_block.
  destruct (String.eqb line first); reflexivity.
Qed.

Lemma add_recipient_lines_eq (d : CoverLetter.data) (doc : document) :
  CoverLetter.add_recipient_lines d doc
  = Ok (set_body
          (d_body doc
           ++ map (CoverForms.recipient_block
                     (default "" (head (CoverLetter.recipient_lines d))))
                  (CoverLetter.recipient_lines d)) doc).
Proof.
  unfold CoverLetter.add_recipient_lines.
  destruct (CoverLetter.recipient_lines d) as [|first rest] eqn:Hl.
  - destruct doc; unfold set_body; simpl. by rewrite app_nil_r.
  - rewrite <- Hl at 2 3.
    rewrite (for_each_total _ (fun doc line =>
               add_block (CoverForms.recipient_block first line) doc)).
    + rewrite (foldl_add_block (CoverForms.recipient_block first)). by rewrite Hl.
    + intros s x. by apply add_recipient_line_eq.
Qed.

Lemma cover_build_docx_eq (d : CoverLetter.data) :
  ∃ doc, CoverLetter.build_docx d = Ok doc ∧ d_body doc = CoverForms.cover_body d.
Proof.
  unfold CoverLetter.build_docx.
  rewrite cover_header_table_eq. cbn [mbind result_bind].
  rewrite add_recipient_lines_eq. cbn [mbind result_bind].
  eexists. split; [reflexivity|].
  rewrite !foldl_add_block.
  unfold CoverForms.cover_body, CoverForms.recipient_blocks, CoverLetter.add_badge.
  destruct (truthy (CoverLetter.badge d)); cbn; rewrite <- ?app_assoc; reflexivity.
Qed.

(** ** The contact line *)











(** ** Sample runs *)

Example resume_run_sample :
  let '(p, w) := Cli.resume_main RunSamples.sample_parser RunSamples.sample_writer
                   ["build-resume-docx.py"; "resume.html"; "out.docx"]
                   (RunSamples.good_world 0 []) in
  p = Cli.Finished
  ∧ Cli.stdout w = ["Generated out.docx"]
  ∧ is_Some (Cli.files w !! "out.docx")
  ∧ Cli.files w !! "resume.docx" = None.
Proof. vm_compute. repeat split. by eexists. Qed.

Example parse_cover_sample :
  CoverLetter.parse_cover_letter SampleData.cover_soup = Ok SampleData.cover_data.
Proof. vm_compute. reflexivity. Qed.

Example parse_resume_sample :
  Resume.parse_resume Samples.resume_soup = Ok SampleData.resume_data.
Proof. vm_compute. reflexivity. Qed.

(** ** Recipient lines *)

(** C1. The recipient loop decides the emphasis by comparing the text of
    the line with the text of the first line.  For the letter whose
    recipient lines are "Acme Corp", "Attn: Hiring", "Acme Corp" - which
    the extractor produces from the sample letter - the third line is
    rendered bold and coloured like the first one, not plain. *)
Theorem repeated_recipient_line_is_emphasized :
  CoverLetter.parse_cover_letter SampleData.cover_soup = Ok SampleData.cover_data
  ∧ CoverLetter.recipient_lines SampleData.cover_data
    = ["Acme Corp"; "Attn: Hiring"; "Acme Corp"]
  ∧ ∃ doc,
      CoverLetter.build_docx SampleData.cover_data = Ok doc
      ∧ d_body doc !! 2%nat = Some (CoverForms.emphasized_line "Acme Corp")
      ∧ d_body doc !! 3%nat = Some (CoverForms.plain_line "Attn: Hiring")
      ∧ d_body doc !! 4%nat = Some (CoverForms.emphasized_line "Acme Corp")
      ∧ CoverForms.emphasized_line "Acme Corp" ≠ CoverForms.plain_line "Acme Corp".
Proof.
  split; [apply parse_cover_sample|]. split; [reflexivity|].
  destruct (cover_build_docx_eq SampleData.cover_data) as (doc & Hdoc & Hbody).
  exists doc. split; [exact Hdoc|]. rewrite Hbody.
  repeat split; try reflexivity. discriminate.
Qed.

(** ** Optional fields *)





(** ** When extraction raises *)

Lemma parse_job_is_ok (job_div : node) :
  is_ok (Resume._parse_job job_div) = job_has_header job_div.
Proof.
  rewrite _parse_job_eq. unfold job_has_header.
  by destruct (find "div" (Some "job-header") job_div).
Qed.

Lemma parse_jobs_is_ok (add : Resume.data → Resume.job → Resume.data)
    (d : Resume.data) (job_divs : list node) :
  is_ok (for_each (fun d job_div => j ← Resume._parse_job job_div; Ok (add d j))
                  d job_divs)
  = forallb job_has_header job_divs.
Proof.
  apply for_each_is_ok. intros s x. rewrite <- parse_job_is_ok.
  by destruct (Resume._parse_job x).
Qed.

Lemma index_is_ok {A} (xs : list A) (i : nat) :
  is_ok (index xs i) = (i <? length xs)%nat.
Proof.
  unfold index. destruct (xs !! i) eqn:Hi; simpl; symmetry.
  - apply Nat.ltb_lt. by eapply lookup_lt_Some.
  - apply Nat.ltb_ge. by apply lookup_ge_None.
Qed.

Lemma parse_education_is_ok (section : node) (d : Resume.data) :
  is_ok (Resume.parse_education section d)
  = match find "div" (Some "two-column") section with
    | Some two_col => (2 <=? length (find_all_children "div" two_col))%nat
    | None => false
    end.
Proof.
  unfold Resume.parse_education.
  destruct (find "div" (Some "two-column") section) as [two_col|]; [|done].
  cbn [deref mbind result_bind].
  destruct (find_all_children "div" two_col) as [|c0 [|c1 cols]]; reflexivity.
Qed.

Lemma parse_section_is_ok (d : Resume.data) (section : node) :
  is_ok (Resume.parse_section d section) = section_ok section.
Proof.
  unfold Resume.parse_section, section_ok, section_title_text.
  destruct (find "div" (Some "section-title") section) as [title_el|]; [|done].
  cbn [fmap option_fmap option_map].
  destruct (String.eqb _ "Professional Experience"); [apply parse_jobs_is_ok|].
  destruct (String.eqb _ "Military Service"); [apply parse_jobs_is_ok|].
  destruct (String.eqb _ "Education & Certifications"); [apply parse_education_is_ok|].
  done.
Qed.

Lemma parse_resume_is_ok (soup : node) :
  is_ok (Resume.parse_resume soup) = resume_well_formed soup.
Proof.
  unfold Resume.parse_resume, resume_well_formed, header_ok.
  destruct (find "div" (Some "header") soup) as [header|]; [|done].
  cbn [deref mbind result_bind].
  destruct (find "h1" None header); [|done].
  cbn [deref mbind result_bind present andb].
  destruct (find "div" (Some "title") header); [|done].
  cbn [deref mbind result_bind present andb].
  destruct (find "div" (Some "contact-row") header); [|done].
  cbn [deref mbind result_bind present andb].
  destruct (find "div" (Some "skills-grid") soup); [|done].
  cbn [deref mbind result_bind present andb].
  apply for_each_is_ok. intros s x. apply parse_section_is_ok.
Qed.

Lemma parse_cover_letter_is_ok (soup : node) :
  is_ok (CoverLetter.parse_cover_letter soup) = cover_well_formed soup.
Proof.
  unfold CoverLetter.parse_cover_letter, cover_well_formed, header_ok.
  destruct (find "div" (Some "header") soup) as [header|]; [|done].
  cbn [deref mbind result_bind].
  destruct (find "h1" None header); [|done].
  cbn [deref mbind result_bind present andb].
  destruct (find "div" (Some "title") header); [|done].
  cbn [deref mbind result_bind present andb].
  destruct (find "div" (Some "contact-row") header); [|done].
  cbn [deref mbind result_bind present andb].
  destruct (find "div" (Some "content") soup) as [content|]; [|done].
  cbn [deref mbind result_bind present andb].
  destruct (find "div" (Some "date") content); [|done].
  cbn [deref mbind result_bind present andb].
  destruct (find "div" (Some "recipient") content); [|done].
  cbn [deref mbind result_bind present andb].
  destruct (find "div" (Some "salutation") content); [|done].
  cbn [deref mbind result_bind present andb].
  destruct (find "div" (Some "body") content); [|done].
  cbn [deref mbind result_bind present andb].
  destruct (find "div" (Some "closing") content) as [closing|]; [|done].
  cbn [deref mbind result_bind present andb].
  destruct (find "div" (Some "regards") closing); [|done].
  cbn [deref mbind result_bind present andb].
  destruct (find "div" (Some "signature") closing); [|done].
  cbn [deref mbind result_bind present andb].
  destruct (find "div" (Some "credential") closing); done.
Qed.

(** ** Runs of the [__main__] blocks *)

Section runs.
Variable BeautifulSoup : string → result node.
Variable docx_bytes : Z → document → string.
Context {D : Type}.
Variable parse : node → result D.
Variable build : D → result document.
Variable default_html default_output : string.

Local Abbreviation extract := (Cli.extract BeautifulSoup parse default_html).
Local Abbreviation render := (Cli.render BeautifulSoup parse build default_html).
Local Abbreviation trace :=
  (Cli.trace BeautifulSoup docx_bytes parse build default_html default_output).
Local Abbreviation main :=
  (Cli.main BeautifulSoup docx_bytes parse build default_html default_output).

(** A fault of the extraction stage ends the run at once: the world is
    left as it was and no later statement is reached. *)
Lemma run_on_extraction_fault (argv : list string) (w : Cli.world) (e : exception) :
  extract argv w = Raise e →
  trace argv w = [ (Cli.Extracting, w); (Cli.Uncaught e, w);
                   (Cli.Uncaught e, w); (Cli.Uncaught e, w) ]
  ∧ main argv w = (Cli.Uncaught e, w).
Proof.
  intros He. unfold Cli.trace, Cli.main. cbn [Cli.step]. rewrite He. done.
Qed.

(** The only state that is about to render is the second one, and it
    holds the record the extraction stage returned, the world untouched. *)
Lemma rendering_follows_extraction (argv : list string) (w : Cli.world)
    (c : Cli.pc * Cli.world) (data : D) :
  c ∈ trace argv w → c.1 = Cli.Rendering data →
  extract argv w = Ok data ∧ c.2 = w.
Proof.
  unfold Cli.trace. cbn [Cli.step]. intros Hin Hc.
  destruct (extract argv w) as [data0|e] eqn:He.
  - cbn [Cli.step] in Hin.
    destruct (data ← build data0;
              Cli.save docx_bytes data (Cli.arg_or argv 2 default_output) w)
      as [w'|e'] in Hin; cbn [Cli.step] in Hin;
      apply list_elem_of_In in Hin;
      destruct Hin as [<-|[<-|[<-|[<-|[]]]]]; simpl in Hc; try discriminate Hc;
      inversion Hc; done.
  - cbn [Cli.step] in Hin. apply list_elem_of_In in Hin.
    destruct Hin as [<-|[<-|[<-|[<-|[]]]]]; simpl in Hc; discriminate Hc.
Qed.



End runs.

(** C2. When the input lacks a required structural element - the file
    is missing or unreadable, or the tree read from it has no header
    block, or lacks another element the extractor dereferences - the run
    stops in the extraction statement: it ends on an uncaught exception
    (exit status 1), never reaches the rendering statement, and leaves the
    world as it was, so no output file is created and nothing is printed.
    In every run the rendering statement starts from the complete record
    that extraction returned, with the world still untouched.  Both
    scripts behave so. *)
Theorem extraction_fault_aborts_before_rendering
    (BeautifulSoup : string → result node) (docx_bytes : Z → document → string)
    (argv : list string) (w : Cli.world) :
  (* a tree without header block lacks a required element *)
  (∀ soup, find "div" (Some "header") soup = None →
     resume_well_formed soup = false ∧ cover_well_formed soup = false)
  (* rendering only ever starts from the extracted record *)
  ∧ (∀ c data, c ∈ Cli.resume_trace BeautifulSoup docx_bytes argv w →
       c.1 = Cli.Rendering data →
       Cli.resume_extract BeautifulSoup argv w = Ok data ∧ c.2 = w)
  ∧ (∀ c data, c ∈ Cli.coverletter_trace BeautifulSoup docx_bytes argv w →
       c.1 = Cli.Rendering data →
       Cli.coverletter_extract BeautifulSoup argv w = Ok data ∧ c.2 = w)
  (* the résumé script on a faulty input *)
  ∧ ((∀ soup, Cli.read_soup BeautifulSoup w (Cli.arg_or argv 1 "resume.html") = Ok soup →
        resume_well_formed soup = false) →
     ∃ e,
       Cli.resume_trace BeautifulSoup docx_bytes argv w
       = [ (Cli.Extracting, w); (Cli.Uncaught e, w);
           (Cli.Uncaught e, w); (Cli.Uncaught e, w) ]
       ∧ Cli.resume_main BeautifulSoup docx_bytes argv w = (Cli.Uncaught e, w)
       ∧ Cli.exit_status (Cli.resume_main BeautifulSoup docx_bytes argv w).1 = Some 1
       ∧ Forall (fun c => Cli.is_rendering c = false)
                (Cli.resume_trace BeautifulSoup docx_bytes argv w)
       ∧ Cli.files (Cli.resume_main BeautifulSoup docx_bytes argv w).2 = Cli.files w
       ∧ Cli.stdout (Cli.resume_main BeautifulSoup docx_bytes argv w).2 = Cli.stdout w)
  (* the cover-letter script on a faulty input *)
  ∧ ((∀ soup, Cli.read_soup BeautifulSoup w (Cli.arg_or argv 1 "neuroworks.html") = Ok soup →
        cover_well_formed soup = false) →
     ∃ e,
       Cli.coverletter_trace BeautifulSoup docx_bytes argv w
       = [ (Cli.Extracting, w); (Cli.Uncaught e, w);
           (Cli.Uncaught e, w); (Cli.Uncaught e, w) ]
       ∧ Cli.coverletter_main BeautifulSoup docx_bytes argv w = (Cli.Uncaught e, w)
       ∧ Cli.exit_status (Cli.coverletter_main BeautifulSoup docx_bytes argv w).1 = Some 1
       ∧ Forall (fun c => Cli.is_rendering c = false)
                (Cli.coverletter_trace BeautifulSoup docx_bytes argv w)
       ∧ Cli.files (Cli.coverletter_main BeautifulSoup docx_bytes argv w).2 = Cli.files w
       ∧ Cli.stdout (Cli.coverletter_main BeautifulSoup docx_bytes argv w).2
         = Cli.stdout w).
Proof.
  split.
  { intros soup Hh. unfold resume_well_formed, cover_well_formed, header_ok.
    by rewrite Hh. }
  split; [intros c data; apply rendering_follows_extraction|].
  split; [intros c data; apply rendering_follows_extraction|].
  split.
  - intros Hfault.
    assert (∃ e, Cli.resume_extract BeautifulSoup argv w = Raise e) as [e He].
    { unfold Cli.resume_extract, Cli.extract.
      destruct (Cli.read_soup BeautifulSoup w (Cli.arg_or argv 1 "resume.html"))
        as [soup|e] eqn:Hr; [|by exists e].
      cbn [mbind result_bind]. specialize (Hfault soup eq_refl).
      rewrite <- parse_resume_is_ok in Hfault.
      destruct (Resume.parse_resume soup) as [d|e]; [discriminate Hfault | by exists e]. }
    exists e.
    destruct (run_on_extraction_fault BeautifulSoup docx_bytes Resume.parse_resume
                Resume.build_docx "resume.html" "resume.docx" argv w e He) as [Ht Hm].
    unfold Cli.resume_trace, Cli.resume_main. rewrite Ht, Hm.
    repeat split; try done. repeat constructor.
  - intros Hfault.
    assert (∃ e, Cli.coverletter_extract BeautifulSoup argv w = Raise e) as [e He].
    { unfold Cli.coverletter_extract, Cli.extract.
      destruct (Cli.read_soup BeautifulSoup w (Cli.arg_or argv 1 "neuroworks.html"))
        as [soup|e] eqn:Hr; [|by exists e].
      cbn [mbind result_bind]. specialize (Hfault soup eq_refl).
      rewrite <- parse_cover_letter_is_ok in Hfault.
      destruct (CoverLetter.parse_cover_letter soup) as [d|e];
        [discriminate Hfault | by exists e]. }
    exists e.
    destruct (run_on_extraction_fault BeautifulSoup docx_bytes
                CoverLetter.parse_cover_letter CoverLetter.build_docx
                "neuroworks.html" "neuroworks.docx" argv w e He) as [Ht Hm].
    unfold Cli.coverletter_trace, Cli.coverletter_main. rewrite Ht, Hm.
    repeat split; try done. repeat constructor.
Qed.

Lemma extraction_fault_aborts_before_rendering_witness :
  ∃ e,
    Cli.resume_main RunSamples.sample_parser RunSamples.sample_writer
                    RunSamples.argv RunSamples.headless_world
    = (Cli.Uncaught e, RunSamples.headless_world)
    ∧ Forall (fun c => Cli.is_rendering c = false)
             (Cli.resume_trace RunSamples.sample_parser RunSamples.sample_writer
                               RunSamples.argv RunSamples.headless_world).
Proof.
  destruct (extraction_fault_aborts_before_rendering RunSamples.sample_parser
              RunSamples.sample_writer RunSamples.argv RunSamples.headless_world)
    as (_ & _ & _ & Hresume & _).
  destruct Hresume as (e & _ & Hmain & _ & Hnone & _).
  - intros soup Hread. vm_compute in Hread. inversion Hread. reflexivity.
  - exists e. split; assumption.
Defined.



(** ** Sections the résumé extractor does not act on *)

Lemma for_each_invariant {A S} (P : S → Prop) (body : S → A → result S)
    (s s' : S) (xs : list A) :
  P s →
  (∀ s x s', x ∈ xs → P s → body s x = Ok s' → P s') →
  for_each body s xs = Ok s' → P s'.
Proof.
  revert s. induction xs as [|x xs IH]; intros s Hs Hstep Hrun.
  - simpl in Hrun. injection Hrun as <-. exact Hs.
  - cbn [for_each] in Hrun. destruct (body s x) as [s1|e] eqn:Hb; [|done].
    cbn [mbind result_bind] in Hrun. apply (IH s1); [|..|exact Hrun].
    + apply (Hstep s x s1); [left | exact Hs | exact Hb].
    + intros s2 y s3 Hy. apply Hstep. by right.
Qed.

Lemma recognized_false (section : node) :
  recognized section = false ↔
  find "div" (Some "section-title") section = None
  ∨ ∃ title_el, find "div" (Some "section-title") section = Some title_el
                ∧ get_text "" title_el ∉ recognized_titles.
Proof.
  unfold recognized, section_title_text.
  destruct (find "div" (Some "section-title") section) as [title_el|];
    cbn [fmap option_fmap option_map].
  - split.
    + intros Hex. right. exists title_el. split; [done|].
      intros Hin. apply list_elem_of_In in Hin.
      assert (existsb (String.eqb (get_text "" title_el)) recognized_titles = true);
        [|congruence].
      apply existsb_exists. exists (get_text "" title_el).
      split; [exact Hin | apply String.eqb_refl].
    + intros [Hnone|(t & Ht & Hnot)]; [done|]. inversion Ht; subst t.
      apply not_true_is_false. intros Hex.
      apply existsb_exists in Hex as (t & Hin & Heq).
      apply String.eqb_eq in Heq. subst t. apply Hnot. by apply list_elem_of_In.
  - split; [by left | done].
Qed.

Lemma parse_section_unrecognized (d : Resume.data) (section : node) :
  recognized section = false → Resume.parse_section d section = Ok d.
Proof.
  unfold recognized, section_title_text, Resume.parse_section.
  destruct (find "div" (Some "section-title") section) as [title_el|]; [|done].
  cbn [fmap option_fmap option_map existsb recognized_titles].
  intros Hex. apply orb_false_elim in Hex as [H1 Hex].
  apply orb_false_elim in Hex as [H2 Hex]. apply orb_false_elim in Hex as [H3 _].
  by rewrite H1, H2, H3.
Qed.

Lemma parse_jobs_keep_education (add : Resume.data → Resume.job → Resume.data)
    (d d' : Resume.data) (job_divs : list node) :
  (∀ d j, Resume.education (add d j) = Resume.education d) →
  for_each (fun d job_div => j ← Resume._parse_job job_div; Ok (add d j)) d job_divs
  = Ok d' →
  Resume.education d' = Resume.education d.
Proof.
  intros Hadd Hrun.
  refine (for_each_invariant (fun s => Resume.education s = Resume.education d)
            _ d d' job_divs _ _ Hrun); [done|].
  intros s x s' _ Hs Hb. destruct (Resume._parse_job x) as [j|e]; [|done].
  cbn [mbind result_bind] in Hb. inversion Hb. by rewrite Hadd.
Qed.

Lemma parse_section_keeps_education (d d' : Resume.data) (section : node) :
  section_title_text section ≠ Some "Education & Certifications" →
  Resume.parse_section d section = Ok d' →
  Resume.education d' = Resume.education d.
Proof.
  unfold section_title_text, Resume.parse_section.
  destruct (find "div" (Some "section-title") section) as [title_el|];
    cbn [fmap option_fmap option_map]; [|intros _ H; by inversion H].
  intros Hne.
  destruct (String.eqb _ "Professional Experience");
    [by apply parse_jobs_keep_education|].
  destruct (String.eqb _ "Military Service");
    [by apply parse_jobs_keep_education|].
  destruct (String.eqb _ "Education & Certifications") eqn:He.
  - apply String.eqb_eq in He. by rewrite He in Hne.
  - intros H. by inversion H.
Qed.

Lemma parse_resume_sections (soup : node) (d' : Resume.data) :
  Resume.parse_resume soup = Ok d' →
  ∃ d0, Resume.jobs d0 = [] ∧ Resume.military d0 = [] ∧ Resume.education d0 = ∅
        ∧ for_each Resume.parse_section d0 (find_all "div" (Some "section") soup)
          = Ok d'.
Proof.
  unfold Resume.parse_resume.
  destruct (find "div" (Some "header") soup) as [header|]; [|done].
  cbn [deref mbind result_bind].
  destruct (find "h1" None header); [|done]. cbn [deref mbind result_bind].
  destruct (find "div" (Some "title") header); [|done]. cbn [deref mbind result_bind].
  destruct (find "div" (Some "contact-row") header); [|done].
  cbn [deref mbind result_bind].
  destruct (find "div" (Some "skills-grid") soup); [|done].
  cbn [deref mbind result_bind].
  intros Hrun. eexists. repeat split; [..|exact Hrun]; reflexivity.
Qed.

(** C9. A section whose title element is absent, or whose title text is
    none of "Professional Experience", "Military Service" and "Education &
    Certifications", is passed over by the résumé extractor without
    failure: its turn of the loop returns the record unchanged, so the
    extraction is the same as if only the recognized sections were there.
    In particular a résumé that has the required elements but no section
    titled "Education & Certifications" is extracted, with an empty
    education record, and its education table then shows the two labels
    alone. *)
Theorem unrecognized_sections_are_skipped
    (d : Resume.data) (section soup : node) (sections : list node) :
  ((find "div" (Some "section-title") section = None
    ∨ ∃ title_el, find "div" (Some "section-title") section = Some title_el
                  ∧ get_text "" title_el ∉ recognized_titles) →
   Resume.parse_section d section = Ok d)
  ∧ for_each Resume.parse_section d
             (filter (fun s => recognized s = true) sections)
    = for_each Resume.parse_section d sections
  ∧ (resume_well_formed soup = true →
     (∀ s, s ∈ find_all "div" (Some "section") soup →
           section_title_text s ≠ Some "Education & Certifications") →
     ∃ d',
       Resume.parse_resume soup = Ok d'
       ∧ Resume.education d' = ∅
       ∧ Resume.education_table d'
         = Ok (mk_table None borderless
                 [[ mk_cell [] [label_paragraph "Education"];
                    mk_cell [] [label_paragraph "Certifications"] ]])).
Proof.
  split; [|split].
  - intros Hun. apply parse_section_unrecognized. by apply recognized_false.
  - apply for_each_filter. intros s x. apply parse_section_unrecognized.
  - intros Hwf Hnoedu.
    rewrite <- parse_resume_is_ok in Hwf.
    destruct (Resume.parse_resume soup) as [d'|e] eqn:Hp; [|discriminate Hwf].
    exists d'. split; [reflexivity|].
    destruct (parse_resume_sections soup d' Hp) as (d0 & _ & _ & Hempty & Hrun).
    assert (Hedu : Resume.education d' = ∅).
    { rewrite <- Hempty.
      refine (for_each_invariant
                (fun s => Resume.education s = Resume.education d0)
                _ d0 d' (find_all "div" (Some "section") soup) _ _ Hrun); [done|].
      intros s x s' Hx Hs Hb. rewrite <- Hs.
      apply (parse_section_keeps_education s s' x); [by apply Hnoedu | exact Hb]. }
    split; [exact Hedu|].
    rewrite education_table_eq. unfold education_form. rewrite Hedu.
    rewrite !lookup_empty. reflexivity.
Qed.

Lemma unrecognized_sections_are_skipped_witness :
  Resume.parse_section SampleData.resume_data
    (Samples.el "div" "section"
       [ Samples.el "div" "section-title" [Samples.txt "Volunteering"];
         Samples.el "div" "job" [Samples.txt "no header here"] ])
  = Ok SampleData.resume_data
  ∧ ∃ d', Resume.parse_resume Samples.resume_soup = Ok d' ∧ Resume.education d' = ∅.
Proof.
  destruct (unrecognized_sections_are_skipped SampleData.resume_data
              (Samples.el "div" "section"
                 [ Samples.el "div" "section-title" [Samples.txt "Volunteering"];
                   Samples.el "div" "job" [Samples.txt "no header here"] ])
              Samples.resume_soup []) as (Hskip & _ & Hedu).
  split.
  - apply Hskip. right. eexists. split; [reflexivity|].
    vm_compute. intros Hin. apply list_elem_of_In in Hin.
    destruct Hin as [H|[H|[H|[]]]]; discriminate H.
  - destruct Hedu as (d' & Hd' & He & _).
    + vm_compute. reflexivity.
    + intros s Hs. vm_compute in Hs. apply list_elem_of_In in Hs.
      destruct Hs as [<-|[<-|[<-|[]]]]; vm_compute; discriminate.
    + exists d'. split; assumption.
Defined.

(* ===================================================================== *)
(** * Further properties of the extractors *)
(* ===================================================================== *)

Lemma for_each_raise {A S} (body : S → A → result S) (s : S) (xs : list A)
    (e : exception) :
  for_each body s xs = Raise e → ∃ s0 x, x ∈ xs ∧ body s0 x = Raise e.
Proof.
  revert s. induction xs as [|x xs IH]; intros s Hrun; [done|].
  cbn [for_each] in Hrun. destruct (body s x) as [s1|e1] eqn:Hb.
  - cbn [mbind result_bind] in Hrun. destruct (IH s1 Hrun) as (s0 & y & Hy & Hr).
    exists s0, y. split; [by right | exact Hr].
  - cbn [mbind result_bind] in Hrun. injection Hrun as ->.
    exists s, x. split; [left | exact Hb].
Qed.

Lemma is_ok_true {A} (r : result A) : is_ok r = true ↔ ∃ a, r = Ok a.
Proof.
  destruct r as [a|e]; simpl; split; try done.
  - intros _. by exists a.
  - intros [a Ha]. discriminate Ha.
Qed.

Lemma parse_jobs_raise (add : Resume.data → Resume.job → Resume.data)
    (d : Resume.data) (job_divs : list node) (e : exception) :
  for_each (fun d job_div => j ← Resume._parse_job job_div; Ok (add d j)) d job_divs
  = Raise e → e = AttributeError.
Proof.
  intros Hrun. apply for_each_raise in Hrun as (s0 & x & _ & Hb).
  rewrite _parse_job_eq in Hb.
  destruct (find "div" (Some "job-header") x); cbn in Hb; [discriminate Hb|].
  by injection Hb as <-.
Qed.

Lemma parse_section_raise (d : Resume.data) (section : node) (e : exception) :
  Resume.parse_section d section = Raise e → e = AttributeError ∨ e = IndexError.
Proof.
  unfold Resume.parse_section.
  destruct (find "div" (Some "section-title") section) as [title_el|]; [|done].
  destruct (String.eqb _ "Professional Experience").
  { intros H. left. by eapply parse_jobs_raise. }
  destruct (String.eqb _ "Military Service").
  { intros H. left. by eapply parse_jobs_raise. }
  destruct (String.eqb _ "Education & Certifications"); [|done].
  unfold Resume.parse_education.
  destruct (find "div" (Some "two-column") section) as [two_col|]; cbn;
    [|intros H; left; by injection H as <-].
  destruct (find_all_children "div" two_col) as [|c0 [|c1 cols]]; cbn;
    intros H; try (right; by injection H as <-). discriminate H.
Qed.

(** X1. The résumé extractor returns a record exactly when the page has
    the elements it dereferences: the header block with its [h1], title
    and contact row, the skills grid, a header sub-block in every job of a
    job section and two columns in the education block.  When it raises,
    the exception is an [AttributeError] (a query returned [None]) or an
    [IndexError] (a missing column). *)
Theorem resume_extraction_returns_iff_required_present (soup : node) :
  ((∃ d, Resume.parse_resume soup = Ok d) ↔ resume_well_formed soup = true)
  ∧ (∀ e, Resume.parse_resume soup = Raise e → e = AttributeError ∨ e = IndexError).
Proof.
  split.
  - rewrite <- parse_resume_is_ok. symmetry. apply is_ok_true.
  - intros e. unfold Resume.parse_resume.
    destruct (find "div" (Some "header") soup) as [header|]; cbn;
      [|intros H; left; by injection H as <-].
    destruct (find "h1" None header); cbn; [|intros H; left; by injection H as <-].
    destruct (find "div" (Some "title") header); cbn;
      [|intros H; left; by injection H as <-].
    destruct (find "div" (Some "contact-row") header); cbn;
      [|intros H; left; by injection H as <-].
    destruct (find "div" (Some "skills-grid") soup); cbn;
      [|intros H; left; by injection H as <-].
    intros Hrun. apply for_each_raise in Hrun as (s0 & x & _ & Hb).
    by eapply parse_section_raise.
Qed.

(** X2. The cover-letter extractor returns a record exactly when the
    page has the header block with its [h1], title and contact row, and
    the content block with its date, recipient, salutation, body and
    closing (regards, signature, credential) elements; the badge is not
    needed.  When it raises, the exception is an [AttributeError]. *)
Theorem cover_extraction_returns_iff_required_present (soup : node) :
  ((∃ d, CoverLetter.parse_cover_letter soup = Ok d) ↔ cover_well_formed soup = true)
  ∧ (∀ e, CoverLetter.parse_cover_letter soup = Raise e → e = AttributeError).
Proof.
  split.
  - rewrite <- parse_cover_letter_is_ok. symmetry. apply is_ok_true.
  - intros e. unfold CoverLetter.parse_cover_letter.
    repeat (match goal with
            | |- context [deref (find ?n ?c ?x)] =>
                destruct (find n c x); cbn [deref mbind result_bind];
                [|intros H; by injection H as <-]
            end).
    intros H. discriminate H.
Qed.

(** ** The education section *)

Lemma foldl_alter_append {A} (f : A → string) (k : string)
    (m : gmap string (list string)) (acc : list string) (items : list A) :
  foldl (fun e item => alter (fun l => l ++ [f item]) k e) (<[k := acc]> m) items
  = <[k := acc ++ map f items]> m.
Proof.
  revert acc. induction items as [|x items IH]; intros acc; simpl.
  - by rewrite app_nil_r.
  - rewrite alter_insert_eq, IH. by rewrite <- app_assoc.
Qed.

Lemma parse_education_closed_form (section : node) (d : Resume.data) :
  Resume.parse_education section d
  = match find "div" (Some "two-column") section with
    | None => Raise AttributeError
    | Some two_col =>
        match find_all_children "div" two_col with
        | c0 :: c1 :: _ =>
            Ok (Resume.mk_data (Resume.name d) (Resume.title d) (Resume.contacts d)
                  (Resume.skills d) (Resume.jobs d) (Resume.military d)
                  (<["right" := cert_texts c1]>
                     (<["left" := cert_texts c0]> (Resume.education d))))
        | _ => Raise IndexError
        end
    end.
Proof.
  unfold Resume.parse_education.
  destruct (find "div" (Some "two-column") section) as [two_col|]; [|done].
  cbn [deref mbind result_bind].
  destruct (find_all_children "div" two_col) as [|c0 [|c1 cols]]; [done..|].
  unfold index. cbn [lookup list_lookup mbind result_bind].
  unfold Resume.set_education. do 2 f_equal.
  rewrite (insert_insert_ne _ "right" "left") by done.
  rewrite (foldl_alter_append (get_text " ") "left"). cbn [app].
  rewrite (insert_insert_ne _ "left" "right") by done.
  rewrite (foldl_alter_append (get_text " ") "right"). cbn [app].
  reflexivity.
Qed.

(** X3. The education branch needs the two-column block
    ([AttributeError] without it) and at least two [div] children in it
    ([IndexError] otherwise).  It then sets the "left" list to the item
    texts of the first column and the "right" list to those of the second:
    lists left by an earlier education section are replaced, not extended,
    columns after the second are ignored, and nothing else in the record
    changes. *)
Theorem education_section_replaces_both_lists (section : node) (d : Resume.data) :
  Resume.parse_education section d
  = match find "div" (Some "two-column") section with
    | None => Raise AttributeError
    | Some two_col =>
        match find_all_children "div" two_col with
        | c0 :: c1 :: _ =>
            Ok (Resume.mk_data (Resume.name d) (Resume.title d) (Resume.contacts d)
                  (Resume.skills d) (Resume.jobs d) (Resume.military d)
                  (<["right" := cert_texts c1]>
                     (<["left" := cert_texts c0]> (Resume.education d))))
        | _ => Raise IndexError
        end
    end.
Proof. apply parse_education_closed_form. Qed.

(** ** What the résumé record holds *)

Lemma foldl_nonempty_texts (acc : list string) (els : list node) :
  foldl (fun acc child =>
           let text := get_text "" child in
           if truthy text then acc ++ [text] else acc) acc els
  = acc ++ nonempty_texts els.
Proof.
  revert acc. induction els as [|x els IH]; intros acc.
  - simpl. by rewrite app_nil_r.
  - cbn [foldl]. rewrite IH. unfold nonempty_texts. cbn [map].
    destruct (truthy (get_text "" x)) eqn:Ht.
    + apply truthy_true in Ht. rewrite filter_cons_True by done.
      by rewrite <- app_assoc.
    + apply truthy_false in Ht. rewrite filter_cons_False; [done|]. by intros H.
Qed.

Lemma nonempty_texts_nonempty (els : list node) :
  Forall (fun t => t ≠ "") (nonempty_texts els).
Proof.
  apply Forall_forall. intros t Ht. unfold nonempty_texts in Ht.
  by apply list_elem_of_filter in Ht as [Hne _].
Qed.

Lemma parse_jobs_closed (add : Resume.data → Resume.job → Resume.data)
    (d d' : Resume.data) (job_divs : list node) :
  for_each (fun d job_div => j ← Resume._parse_job job_div; Ok (add d j)) d job_divs
  = Ok d' →
  ∃ js, Forall2 (fun div j => Resume._parse_job div = Ok j) job_divs js
        ∧ d' = foldl add d js.
Proof.
  revert d. induction job_divs as [|div divs IH]; intros d Hrun.
  - injection Hrun as <-. exists []. split; [constructor | done].
  - cbn [for_each] in Hrun.
    destruct (Resume._parse_job div) as [j|e] eqn:Hj; [|discriminate Hrun].
    cbn [mbind result_bind] in Hrun. destruct (IH _ Hrun) as (js & Hjs & ->).
    exists (j :: js). split; [by constructor | done].
Qed.

Lemma foldl_append_job (d : Resume.data) (js : list Resume.job) :
  foldl Resume.append_job d js
  = Resume.mk_data (Resume.name d) (Resume.title d) (Resume.contacts d)
      (Resume.skills d) (Resume.jobs d ++ js) (Resume.military d) (Resume.education d).
Proof.
  revert d. induction js as [|j js IH]; intros d; simpl.
  - destruct d; simpl. by rewrite app_nil_r.
  - rewrite IH. simpl. by rewrite <- app_assoc.
Qed.

Lemma foldl_append_military (d : Resume.data) (js : list Resume.job) :
  foldl Resume.append_military d js
  = Resume.mk_data (Resume.name d) (Resume.title d) (Resume.contacts d)
      (Resume.skills d) (Resume.jobs d) (Resume.military d ++ js) (Resume.education d).
Proof.
  revert d. induction js as [|j js IH]; intros d; simpl.
  - destruct d; simpl. by rewrite app_nil_r.
  - rewrite IH. simpl. by rewrite <- app_assoc.
Qed.

(** What one turn of the section loop can change: it appends the jobs of
    a job section to the matching list and leaves the header fields alone. *)
Lemma parse_section_result (d d' : Resume.data) (section : node) :
  Resume.parse_section d section = Ok d' →
  ∃ js ms edu,
    d' = Resume.mk_data (Resume.name d) (Resume.title d) (Resume.contacts d)
           (Resume.skills d) (Resume.jobs d ++ js) (Resume.military d ++ ms) edu
    ∧ Forall2 (fun div j => Resume._parse_job div = Ok j)
        (if decide (section_title_text section = Some "Professional Experience")
         then find_all "div" (Some "job") section else []) js
    ∧ Forall2 (fun div j => Resume._parse_job div = Ok j)
        (if decide (section_title_text section = Some "Military Service")
         then find_all "div" (Some "job") section else []) ms.
Proof.
  unfold Resume.parse_section, section_title_text.
  destruct (find "div" (Some "section-title") section) as [title_el|];
    cbn [fmap option_fmap option_map].
  2:{ intros H. injection H as <-. exists [], [], (Resume.education d).
      rewrite !app_nil_r. destruct d. repeat split; constructor. }
  destruct (String.eqb (get_text "" title_el) "Professional Experience") eqn:H1.
  { apply String.eqb_eq in H1. rewrite H1. intros Hrun.
    apply parse_jobs_closed in Hrun as (js & Hjs & ->).
    exists js, [], (Resume.education d). rewrite foldl_append_job, app_nil_r.
    split; [done|]. rewrite decide_True by done. split; [exact Hjs|].
    rewrite decide_False by done. constructor. }
  destruct (String.eqb (get_text "" title_el) "Military Service") eqn:H2.
  { apply String.eqb_eq in H2. rewrite H2. intros Hrun.
    apply parse_jobs_closed in Hrun as (ms & Hms & ->).
    exists [], ms, (Resume.education d). rewrite foldl_append_military, app_nil_r.
    split; [done|]. rewrite decide_False by done. split; [constructor|].
    by rewrite decide_True. }
  apply String.eqb_neq in H1, H2.
  rewrite decide_False by congruence. rewrite decide_False by congruence.
  destruct (String.eqb (get_text "" title_el) "Education & Certifications").
  - rewrite parse_education_closed_form.
    destruct (find "div" (Some "two-column") section) as [two_col|]; [|done].
    destruct (find_all_children "div" two_col) as [|c0 [|c1 cols]]; [done..|].
    intros H. injection H as <-. eexists [], [], _. rewrite !app_nil_r.
    repeat split; constructor.
  - intros H. injection H as <-. exists [], [], (Resume.education d).
    rewrite !app_nil_r. destruct d. repeat split; constructor.
Qed.

Lemma parse_sections_result (d d' : Resume.data) (sections : list node) :
  for_each Resume.parse_section d sections = Ok d' →
  ∃ js ms edu,
    d' = Resume.mk_data (Resume.name d) (Resume.title d) (Resume.contacts d)
           (Resume.skills d) (Resume.jobs d ++ js) (Resume.military d ++ ms) edu
    ∧ Forall2 (fun div j => Resume._parse_job div = Ok j)
        (flat_map (fun s =>
                     if decide (section_title_text s = Some "Professional Experience")
                     then find_all "div" (Some "job") s else []) sections) js
    ∧ Forall2 (fun div j => Resume._parse_job div = Ok j)
        (flat_map (fun s =>
                     if decide (section_title_text s = Some "Military Service")
                     then find_all "div" (Some "job") s else []) sections) ms.
Proof.
  revert d. induction sections as [|s ss IH]; intros d Hrun.
  - injection Hrun as <-. exists [], [], (Resume.education d).
    rewrite !app_nil_r. destruct d. repeat split; constructor.
  - cbn [for_each] in Hrun.
    destruct (Resume.parse_section d s) as [d1|e] eqn:Hs; [|discriminate Hrun].
    cbn [mbind result_bind] in Hrun.
    apply parse_section_result in Hs as (js1 & ms1 & edu1 & -> & Hj1 & Hm1).
    apply IH in Hrun as (js2 & ms2 & edu2 & -> & Hj2 & Hm2).
    exists (js1 ++ js2), (ms1 ++ ms2), edu2. cbn.
    rewrite <- !app_assoc. split; [done|]. split; by apply Forall2_app.
Qed.

(** X4. In the record the résumé extractor returns, the name is the
    stripped text of the first [h1] of the header block, the title that of
    its first title element, the contacts are the stripped texts of the
    children of the contact row with the empty ones left out, in order (so
    no contact is an empty string), and the skills are the texts of the
    skill items of the skills grid, none left out - the section loop
    changes none of these. *)
Theorem resume_header_fields (soup : node) (d : Resume.data) :
  Resume.parse_resume soup = Ok d →
  ∃ header h1 title_el contact_row skills_div,
    find "div" (Some "header") soup = Some header
    ∧ find "h1" None header = Some h1
    ∧ find "div" (Some "title") header = Some title_el
    ∧ find "div" (Some "contact-row") header = Some contact_row
    ∧ find "div" (Some "skills-grid") soup = Some skills_div
    ∧ Resume.name d = get_text "" h1
    ∧ Resume.title d = get_text "" title_el
    ∧ Resume.contacts d = nonempty_texts (children contact_row)
    ∧ Forall (fun c => c ≠ "") (Resume.contacts d)
    ∧ Resume.skills d
      = map (get_text "") (find_all "div" (Some "skill-item") skills_div).
Proof.
  unfold Resume.parse_resume.
  destruct (find "div" (Some "header") soup) as [header|] eqn:H1; [|done].
  cbn [deref mbind result_bind].
  destruct (find "h1" None header) as [h1|] eqn:H2; [|done].
  cbn [deref mbind result_bind].
  destruct (find "div" (Some "title") header) as [title_el|] eqn:H3; [|done].
  cbn [deref mbind result_bind].
  destruct (find "div" (Some "contact-row") header) as [contact_row|] eqn:H4; [|done].
  cbn [deref mbind result_bind].
  destruct (find "div" (Some "skills-grid") soup) as [skills_div|] eqn:H5; [|done].
  cbn [deref mbind result_bind].
  intros Hrun. apply parse_sections_result in Hrun as (js & ms & edu & -> & _ & _).
  exists header, h1, title_el, contact_row, skills_div. cbn.
  unfold Resume.collect_texts. rewrite foldl_nonempty_texts. cbn [app].
  repeat split; try done. apply nonempty_texts_nonempty.
Qed.

Lemma resume_header_fields_witness :
  Resume.contacts SampleData.resume_data
  = ["jane@example.org"; "555-0100"; "Springfield"]
  ∧ Forall (fun c => c ≠ "") (Resume.contacts SampleData.resume_data).
Proof.
  destruct (resume_header_fields Samples.resume_soup SampleData.resume_data)
    as (header & h1 & title_el & contact_row & skills_div
        & _ & _ & _ & _ & _ & _ & _ & _ & Hne & _).
  - vm_compute. reflexivity.
  - split; [reflexivity | exact Hne].
Defined.

(** X5. The jobs of the record the résumé extractor returns are the
    parsed job elements of all sections titled "Professional Experience",
    in document order and section after section, and its military entries
    those of the sections titled "Military Service": one entry per job
    element, none dropped, and nothing from any other section. *)
Theorem resume_jobs_come_from_titled_sections (soup : node) (d : Resume.data) :
  Resume.parse_resume soup = Ok d →
  Forall2 (fun div j => Resume._parse_job div = Ok j)
          (job_divs_titled "Professional Experience" soup) (Resume.jobs d)
  ∧ Forall2 (fun div j => Resume._parse_job div = Ok j)
            (job_divs_titled "Military Service" soup) (Resume.military d)
  ∧ length (Resume.jobs d) = length (job_divs_titled "Professional Experience" soup)
  ∧ length (Resume.military d) = length (job_divs_titled "Military Service" soup).
Proof.
  unfold Resume.parse_resume.
  destruct (find "div" (Some "header") soup) as [header|]; [|done].
  cbn [deref mbind result_bind].
  destruct (find "h1" None header) as [h1|]; [|done]. cbn [deref mbind result_bind].
  destruct (find "div" (Some "title") header) as [title_el|]; [|done].
  cbn [deref mbind result_bind].
  destruct (find "div" (Some "contact-row") header) as [contact_row|]; [|done].
  cbn [deref mbind result_bind].
  destruct (find "div" (Some "skills-grid") soup) as [skills_div|]; [|done].
  cbn [deref mbind result_bind].
  intros Hrun. apply parse_sections_result in Hrun as (js & ms & edu & -> & Hj & Hm).
  cbn. unfold job_divs_titled.
  split; [exact Hj|]. split; [exact Hm|].
  split; symmetry; by eapply Forall2_length.
Qed.

Lemma resume_jobs_come_from_titled_sections_witness :
  length (Resume.jobs SampleData.resume_data) = 1%nat
  ∧ length (Resume.military SampleData.resume_data) = 0%nat.
Proof.
  destruct (resume_jobs_come_from_titled_sections Samples.resume_soup
              SampleData.resume_data) as (_ & _ & Hj & Hm).
  - vm_compute. reflexivity.
  - split; [exact Hj | exact Hm].
Defined.

(** ** What the cover-letter record holds *)

Lemma foldl_recipient_step (acc : list string) (els : list node) :
  foldl CoverLetter.recipient_step acc els
  = acc ++ nonempty_texts (filter (fun c => skipped_child c = false) els).
Proof.
  revert acc. induction els as [|x els IH]; intros acc.
  - simpl. by rewrite app_nil_r.
  - cbn [foldl]. rewrite IH. clear IH.
    assert (Hkeep : ∀ l : list node,
               (if truthy (get_text "" x) then acc ++ [get_text "" x] else acc)
               ++ nonempty_texts l = acc ++ nonempty_texts (x :: l)).
    { intros l. unfold nonempty_texts. cbn [map].
      destruct (truthy (get_text "" x)) eqn:Ht.
      - apply truthy_true in Ht. rewrite filter_cons_True by done.
        by rewrite <- app_assoc.
      - apply truthy_false in Ht. rewrite filter_cons_False; [done|]. by intros H. }
    destruct x as [nm cls cs|s].
    + unfold CoverLetter.recipient_step.
      destruct (String.eqb nm "span" && existsb (String.eqb "company-badge") cls)
        eqn:Hb.
      { rewrite filter_cons_False; [done|]. cbn [skipped_child]. by rewrite Hb. }
      destruct (String.eqb nm "br") eqn:Hbr.
      { rewrite filter_cons_False; [done|]. cbn [skipped_child].
        rewrite Hb, Hbr. done. }
      rewrite filter_cons_True; [apply Hkeep|].
      cbn [skipped_child]. by rewrite Hb, Hbr.
    + unfold CoverLetter.recipient_step.
      rewrite filter_cons_True by done. apply Hkeep.
Qed.

(** X6. In the record the cover-letter extractor returns, the contacts
    are the non-empty stripped texts of the children of the contact row,
    and the recipient lines are the non-empty stripped texts of the
    children of the recipient block other than badge spans and line
    breaks, in order - so no contact and no recipient line is an empty
    string.  The badge is the text of the first badge span anywhere in the
    recipient block, or the empty string without one, and the body
    paragraphs are the texts of all [p] elements of the body block, empty
    ones included. *)
Theorem cover_record_fields (soup : node) (d : CoverLetter.data) :
  CoverLetter.parse_cover_letter soup = Ok d →
  ∃ header contact_row content recipient body,
    find "div" (Some "header") soup = Some header
    ∧ find "div" (Some "contact-row") header = Some contact_row
    ∧ find "div" (Some "content") soup = Some content
    ∧ find "div" (Some "recipient") content = Some recipient
    ∧ find "div" (Some "body") content = Some body
    ∧ CoverLetter.contacts d = nonempty_texts (children contact_row)
    ∧ CoverLetter.recipient_lines d
      = nonempty_texts (filter (fun c => skipped_child c = false) (children recipient))
    ∧ Forall (fun c => c ≠ "") (CoverLetter.contacts d)
    ∧ Forall (fun l => l ≠ "") (CoverLetter.recipient_lines d)
    ∧ CoverLetter.badge d
      = text_or_empty (find "span" (Some "company-badge") recipient)
    ∧ CoverLetter.paragraphs d = map (get_text "") (find_all "p" None body).
Proof.
  unfold CoverLetter.parse_cover_letter.
  destruct (find "div" (Some "header") soup) as [header|] eqn:H1; [|done].
  cbn [deref mbind result_bind].
  destruct (find "h1" None header); [|done]. cbn [deref mbind result_bind].
  destruct (find "div" (Some "title") header); [|done]. cbn [deref mbind result_bind].
  destruct (find "div" (Some "contact-row") header) as [contact_row|] eqn:H2; [|done].
  cbn [deref mbind result_bind].
  destruct (find "div" (Some "content") soup) as [content|] eqn:H3; [|done].
  cbn [deref mbind result_bind].
  destruct (find "div" (Some "date") content); [|done]. cbn [deref mbind result_bind].
  destruct (find "div" (Some "recipient") content) as [recipient|] eqn:H4; [|done].
  cbn [deref mbind result_bind].
  destruct (find "div" (Some "salutation") content); [|done].
  cbn [deref mbind result_bind].
  destruct (find "div" (Some "body") content) as [body|] eqn:H5; [|done].
  cbn [deref mbind result_bind].
  destruct (find "div" (Some "closing") content) as [closing|]; [|done].
  cbn [deref mbind result_bind].
  destruct (find "div" (Some "regards") closing); [|done]. cbn [deref mbind result_bind].
  destruct (find "div" (Some "signature") closing); [|done].
  cbn [deref mbind result_bind].
  destruct (find "div" (Some "credential") closing); [|done].
  cbn [deref mbind result_bind].
  intros H. injection H as <-.
  exists header, contact_row, content, recipient, body.
  cbn [CoverLetter.contacts CoverLetter.recipient_lines CoverLetter.badge
       CoverLetter.paragraphs].
  unfold CoverLetter.collect_texts.
  rewrite foldl_nonempty_texts, foldl_recipient_step. cbn [app].
  repeat split; try done; apply nonempty_texts_nonempty.
Qed.

Lemma cover_record_fields_witness :
  CoverLetter.recipient_lines SampleData.cover_data
  = ["Acme Corp"; "Attn: Hiring"; "Acme Corp"]
  ∧ Forall (fun l => l ≠ "") (CoverLetter.recipient_lines SampleData.cover_data).
Proof.
  destruct (cover_record_fields SampleData.cover_soup SampleData.cover_data)
    as (header & contact_row & content & recipient & body
        & _ & _ & _ & _ & _ & _ & _ & _ & Hne & _).
  - vm_compute. reflexivity.
  - split; [reflexivity | exact Hne].
Defined.

(* ===================================================================== *)
(** * Further properties of the renderers *)
(* ===================================================================== *)























(* ===================================================================== *)
(** * Further properties of the [__main__] blocks *)
(* ===================================================================== *)

Section more_runs.
Variable BeautifulSoup : string → result node.
Variable docx_bytes : Z → document → string.
Context {D : Type}.
Variable parse : node → result D.
Variable build : D → result document.
Variable default_html default_output : string.
Hypothesis build_total : ∀ data, ∃ doc, build data = Ok doc.

Local Abbreviation extract' := (Cli.extract BeautifulSoup parse default_html).
Local Abbreviation render' := (Cli.render BeautifulSoup parse build default_html).
Local Abbreviation trace' :=
  (Cli.trace BeautifulSoup docx_bytes parse build default_html default_output).
Local Abbreviation main' :=
  (Cli.main BeautifulSoup docx_bytes parse build default_html default_output).

(** The three ways a run can end. *)
Lemma main_cases (argv : list string) (w : Cli.world) :
  match extract' argv w with
  | Raise e => main' argv w = (Cli.Uncaught e, w)
  | Ok data =>
      ∃ doc, build data = Ok doc
      ∧ render' argv w = Ok doc
      ∧ trace' argv w !! 1%nat = Some (Cli.Rendering data, w)
      ∧ if Cli.writable w (Cli.arg_or argv 2 default_output)
        then main' argv w
             = (Cli.Finished,
                Cli.mk_world
                  (<[Cli.arg_or argv 2 default_output := docx_bytes (Cli.clock w) doc]>
                     (Cli.files w))
                  (Cli.writable w) (Cli.clock w)
                  (Cli.stdout w ++ ["Generated " +:+ Cli.arg_or argv 2 default_output]))
        else main' argv w = (Cli.Uncaught PermissionError, w)
  end.
Proof.
  unfold Cli.main, Cli.trace, Cli.render. cbn [Cli.step].
  destruct (extract' argv w) as [data|e]; [|done].
  destruct (build_total data) as [doc Hdoc]. exists doc.
  split; [exact Hdoc|]. cbn [mbind result_bind]. split; [exact Hdoc|].
  split; [reflexivity|]. cbn [Cli.step]. rewrite Hdoc. cbn [mbind result_bind].
  unfold Cli.save.
  destruct (Cli.writable w (Cli.arg_or argv 2 default_output)); reflexivity.
Qed.

Lemma arg_or_lookup (argv : list string) (i : nat) (dflt : string) :
  Cli.arg_or argv i dflt = default dflt (argv !! i).
Proof.
  unfold Cli.arg_or. destruct (i <? length argv)%nat eqn:Hi; [done|].
  apply Nat.ltb_ge in Hi. by rewrite (lookup_ge_None_2 argv i Hi).
Qed.

Lemma main_depends_on_two_arguments (argv argv' : list string) (w : Cli.world) :
  argv !! 1%nat = argv' !! 1%nat → argv !! 2%nat = argv' !! 2%nat →
  main' argv w = main' argv' w.
Proof.
  intros H1 H2. unfold Cli.main, Cli.step, Cli.extract.
  rewrite !(arg_or_lookup argv), !(arg_or_lookup argv'), H1, H2. reflexivity.
Qed.

End more_runs.

Lemma resume_build_total (d : Resume.data) : ∃ doc, Resume.build_docx d = Ok doc.
Proof. destruct (resume_build_docx_eq d) as (doc & H & _). by exists doc. Qed.

Lemma cover_build_total (d : CoverLetter.data) :
  ∃ doc, CoverLetter.build_docx d = Ok doc.
Proof. destruct (cover_build_docx_eq d) as (doc & H & _). by exists doc. Qed.




(** X14. A run of the résumé script that ends with status 0 has
    changed the world in two ways only: the output path now holds the
    package of the rendered document - every other file, the input
    included when its path differs, is as before - and one line,
    "Generated " followed by the output path, was added to what was
    printed.  The cover-letter script does the same. *)
Theorem successful_run_writes_output_and_reports
    (BeautifulSoup : string → result node) (docx_bytes : Z → document → string)
    (argv : list string) (w : Cli.world) :
  (∀ w', Cli.resume_main BeautifulSoup docx_bytes argv w = (Cli.Finished, w') →
     ∃ doc,
       Cli.resume_render BeautifulSoup argv w = Ok doc
       ∧ Cli.files w'
         = <[Cli.arg_or argv 2 "resume.docx" := docx_bytes (Cli.clock w) doc]> (Cli.files w)
       ∧ (∀ path, path ≠ Cli.arg_or argv 2 "resume.docx" →
            Cli.files w' !! path = Cli.files w !! path)
       ∧ Cli.stdout w'
         = Cli.stdout w ++ ["Generated " +:+ Cli.arg_or argv 2 "resume.docx"])
  ∧ (∀ w', Cli.coverletter_main BeautifulSoup docx_bytes argv w = (Cli.Finished, w') →
       ∃ doc,
         Cli.coverletter_render BeautifulSoup argv w = Ok doc
         ∧ Cli.files w'
           = <[Cli.arg_or argv 2 "neuroworks.docx" := docx_bytes (Cli.clock w) doc]>
               (Cli.files w)
         ∧ (∀ path, path ≠ Cli.arg_or argv 2 "neuroworks.docx" →
              Cli.files w' !! path = Cli.files w !! path)
         ∧ Cli.stdout w'
           = Cli.stdout w ++ ["Generated " +:+ Cli.arg_or argv 2 "neuroworks.docx"]).
Proof.
  pose proof (main_cases BeautifulSoup docx_bytes Resume.parse_resume Resume.build_docx
                "resume.html" "resume.docx" resume_build_total argv w) as Hr.
  pose proof (main_cases BeautifulSoup docx_bytes CoverLetter.parse_cover_letter
                CoverLetter.build_docx "neuroworks.html" "neuroworks.docx"
                cover_build_total argv w) as Hc.
  unfold Cli.resume_main, Cli.coverletter_main, Cli.resume_render,
    Cli.coverletter_render.
  split; intros w' Hmain.
  - destruct (Cli.extract BeautifulSoup Resume.parse_resume "resume.html" argv w)
      as [data|e]; [|rewrite Hr in Hmain; discriminate Hmain].
    destruct Hr as (doc & _ & Hrender & _ & Hr). exists doc. split; [exact Hrender|].
    destruct (Cli.writable w (Cli.arg_or argv 2 "resume.docx"));
      rewrite Hr in Hmain; [|discriminate Hmain].
    injection Hmain as <-. cbn [Cli.files Cli.stdout].
    split; [done|]. split; [|done]. intros path Hne. by rewrite lookup_insert_ne.
  - destruct (Cli.extract BeautifulSoup CoverLetter.parse_cover_letter
                "neuroworks.html" argv w)
      as [data|e]; [|rewrite Hc in Hmain; discriminate Hmain].
    destruct Hc as (doc & _ & Hrender & _ & Hc). exists doc. split; [exact Hrender|].
    destruct (Cli.writable w (Cli.arg_or argv 2 "neuroworks.docx"));
      rewrite Hc in Hmain; [|discriminate Hmain].
    injection Hmain as <-. cbn [Cli.files Cli.stdout].
    split; [done|]. split; [|done]. intros path Hne. by rewrite lookup_insert_ne.
Qed.

Lemma successful_run_writes_output_and_reports_witness :
  ∃ w',
    Cli.resume_main RunSamples.sample_parser RunSamples.sample_writer
                    RunSamples.argv (RunSamples.good_world 0 [])
    = (Cli.Finished, w')
    ∧ Cli.stdout w' = ["Generated resume.docx"]
    ∧ Cli.files w' !! "resume.html" = Some "<resume/>".
Proof.
  destruct (successful_run_writes_output_and_reports RunSamples.sample_parser
              RunSamples.sample_writer RunSamples.argv (RunSamples.good_world 0 []))
    as [Hresume _].
  eexists. split; [vm_compute; reflexivity|].
  edestruct Hresume as (doc & _ & _ & Hother & Hout); [vm_compute; reflexivity|].
  split; [exact Hout|]. rewrite Hother; [reflexivity | discriminate].
Defined.



(** X16. Only the second and third entries of [sys.argv] reach a run:
    two argument lists that agree there (both having the entry and it
    being the same, or both lacking it) give the same run, whatever the
    program name and any further arguments are; an entry that is lacking
    stands for the script's default path. *)
Theorem run_reads_two_arguments_only
    (BeautifulSoup : string → result node) (docx_bytes : Z → document → string)
    (argv argv' : list string) (w : Cli.world) :
  argv !! 1%nat = argv' !! 1%nat →
  argv !! 2%nat = argv' !! 2%nat →
  Cli.resume_main BeautifulSoup docx_bytes argv w
  = Cli.resume_main BeautifulSoup docx_bytes argv' w
  ∧ Cli.coverletter_main BeautifulSoup docx_bytes argv w
    = Cli.coverletter_main BeautifulSoup docx_bytes argv' w
  ∧ Cli.arg_or argv 1 "resume.html" = default "resume.html" (argv !! 1%nat)
  ∧ Cli.arg_or argv 2 "resume.docx" = default "resume.docx" (argv !! 2%nat).
Proof.
  intros H1 H2. split; [|split; [|split]].
  - by apply main_depends_on_two_arguments.
  - by apply main_depends_on_two_arguments.
  - apply arg_or_lookup.
  - apply arg_or_lookup.
Qed.

Lemma run_reads_two_arguments_only_witness :
  Cli.resume_main RunSamples.sample_parser RunSamples.sample_writer
                  ["build-resume-docx.py"] (RunSamples.good_world 0 [])
  = Cli.resume_main RunSamples.sample_parser RunSamples.sample_writer
                    ["python"] (RunSamples.good_world 0 []).
Proof.
  exact (proj1 (run_reads_two_arguments_only RunSamples.sample_parser
                  RunSamples.sample_writer ["build-resume-docx.py"] ["python"]
                  (RunSamples.good_world 0 []) eq_refl eq_refl)).
Defined.



